(** * Vehicle authorization portal: verification of the two [app.py] variants

    The repository holds two Flask applications:
    - [Mini Project Container/app.py], the public variant ([Module Container]):
      no login, authorized plates loaded from a flat text file;
    - [Mini Project Original (SAFE)/app.py], the gated variant
      ([Module Original]): login-protected routes, plates looked up in a
      SQLite table.

    Python [str] values are sequences of Unicode code points and are embedded
    as [list N]. SQLite tables are embedded by their contents: a table with a
    primary or unique key as a finite map from the key, the [images] table as
    the list of its rows in insertion order. Comparisons of [TEXT] values use
    SQLite's default [BINARY] collation, which on valid text is the order of
    the code points.

    A view function is embedded as a function from the parts of the request it
    reads, the session and the persisted state to its response and the new
    state. A view that raises is answered with status 500. The one exception
    the code raises on well-formed requests is modelled: [file.save] on the
    path of the upload folder itself, reached when the sanitizer empties a
    file name. Template rendering, the console log line of [/scan] and other
    failures of the file system or of SQLite are outside the model. *)

From Stdlib Require Import NArith ZArith List Ascii String Sorting.Sorted Permutation Lia.
From stdpp Require Import base gmap strings list fin_maps.

Local Open Scope N_scope.

(** ** Python strings *)

Abbreviation char := N (only parsing).
Abbreviation str := (list N) (only parsing).

(** A string literal of the source, as its code points. *)
Definition lit (s : string) : str :=
  List.map N_of_ascii (list_ascii_of_string s).

(** [str.isspace] for one code point: CPython's [_PyUnicode_IsWhitespace]. *)
Definition isspace (c : char) : bool :=
  ((9 <=? c) && (c <=? 13)) || ((28 <=? c) && (c <=? 32))
  || (c =? 133) || (c =? 160) || (c =? 5760)
  || ((8192 <=? c) && (c <=? 8202))
  || (c =? 8232) || (c =? 8233) || (c =? 8239) || (c =? 8287) || (c =? 12288).

(** [s.lstrip()], [s.rstrip()] and [s.strip()] without argument. *)
Fixpoint lstrip (s : str) : str :=
  match s with
  | [] => []
  | c :: t => if isspace c then lstrip t else s
  end.

Definition rstrip (s : str) : str := rev (lstrip (rev s)).

Definition strip (s : str) : str := rstrip (lstrip s).

(** The uppercase of an ASCII code point. *)
Definition ascii_upper (c : char) : char :=
  if (97 <=? c) && (c <=? 122) then c - 32 else c.

(** [str.upper] maps every code point through Unicode's full uppercase
    mapping, which may produce several code points. The mapping table of the
    Unicode database is not reproduced; the development is parametric in it
    and uses four facts about it: on ASCII it is the ASCII uppercase,
    whitespace is left alone, a code point that is not whitespace maps to at
    least one code point and to no whitespace, and the code points of an
    uppercase mapping are their own uppercase. *)
Class CaseMap := {
  upper_char : char -> str;
  upper_char_ascii : forall c, c < 128 -> upper_char c = [ascii_upper c];
  upper_char_space : forall c, isspace c = true -> upper_char c = [c];
  upper_char_nonspace : forall c, isspace c = false ->
    upper_char c <> [] /\ Forall (fun d => isspace d = false) (upper_char c);
  upper_char_fixed : forall c d, In d (upper_char c) -> upper_char d = [d]
}.

Section Normalize.
Context {U : CaseMap}.

(** [s.upper()] *)
Definition upper (s : str) : str := flat_map upper_char s.

(** [s.replace(" ", "")] *)
Definition replace_space (s : str) : str :=
  List.filter (fun c => negb (c =? 32)) s.

(** [license_plate.strip().upper().replace(" ", "")], the expression both
    variants of [verify_vehicle] and [load_authorized_vehicles] apply. *)
Definition normalize (p : str) : str := replace_space (upper (strip p)).

End Normalize.

(** ** Text order and timestamps *)

(** Comparison of two [TEXT] values under the [BINARY] collation. *)
Fixpoint str_compare (a b : str) : comparison :=
  match a, b with
  | [], [] => Eq
  | [], _ :: _ => Lt
  | _ :: _, [] => Gt
  | x :: a', y :: b' =>
      match x ?= y with
      | Eq => str_compare a' b'
      | o => o
      end
  end.

Definition str_leb (a b : str) : bool :=
  match str_compare a b with Gt => false | _ => true end.

(** A naive [datetime], as [datetime.now()] returns it. *)
Record datetime := {
  year : N; month : N; day : N;
  hour : N; minute : N; second : N; microsecond : N
}.

(** The field ranges the [datetime] constructor enforces. *)
Definition valid_datetime (d : datetime) : Prop :=
  1 <= year d <= 9999 /\ 1 <= month d <= 12 /\ 1 <= day d <= 31 /\
  hour d <= 23 /\ minute d <= 59 /\ second d <= 59 /\
  microsecond d <= 999999.

(** Chronological comparison of two naive datetimes. *)
Definition datetime_compare (a b : datetime) : comparison :=
  match year a ?= year b with Eq =>
  match month a ?= month b with Eq =>
  match day a ?= day b with Eq =>
  match hour a ?= hour b with Eq =>
  match minute a ?= minute b with Eq =>
  match second a ?= second b with Eq =>
    microsecond a ?= microsecond b
  | o => o end | o => o end | o => o end | o => o end | o => o end | o => o end.

(** [a] is not later than [b]. *)
Definition datetime_le (a b : datetime) : Prop := datetime_compare a b <> Gt.

(** ["%0wd" % n] for [n < 10 ^ w]: the [w] decimal digits of [n], zero
    padded (48 is the digit zero). *)
Fixpoint zfill (w : nat) (n : N) : str :=
  match w with
  | O => []
  | S w' => zfill w' (n / 10) ++ [48 + n mod 10]
  end.

(** [d.isoformat()]: [YYYY-MM-DDTHH:MM:SS], followed by [.ffffff] unless the
    microsecond field is zero. *)
Definition isoformat (d : datetime) : str :=
  zfill 4 (year d) ++ lit "-" ++ zfill 2 (month d) ++ lit "-" ++ zfill 2 (day d)
  ++ lit "T" ++ zfill 2 (hour d) ++ lit ":" ++ zfill 2 (minute d) ++ lit ":"
  ++ zfill 2 (second d)
  ++ (if microsecond d =? 0 then [] else lit "." ++ zfill 6 (microsecond d)).

(** ** The upload history ([vehicles.db], table [images]) and the upload folder

    [init_db], [save_image] and [get_images] are the same text in the two
    variants and are embedded once. *)

Record image_row := {
  img_id : N;
  img_filename : str;
  img_upload_time : str;
  img_plate : str;
  img_is_authorized : Z
}.

(** The table [images]: its rows in insertion order and the [AUTOINCREMENT]
    counter. *)
Record images_table := {
  img_rows : list image_row;
  img_seq : N
}.

(** [init_db]: the table is created when [vehicles.db] does not exist. *)
Definition init_db (existing : option images_table) : images_table :=
  match existing with
  | None => {| img_rows := []; img_seq := 0 |}
  | Some t => t
  end.

(** [INSERT INTO images (filename, upload_time, plate, is_authorized)
    VALUES (?, ?, ?, ?)] *)
Definition insert_image (t : images_table) (filename time plate : str)
    (is_authorized : Z) : images_table :=
  {| img_rows := img_rows t ++
       [ {| img_id := img_seq t + 1; img_filename := filename;
            img_upload_time := time; img_plate := plate;
            img_is_authorized := is_authorized |} ];
     img_seq := img_seq t + 1 |}.

(** [ORDER BY key DESC] as a stable insertion sort on a [TEXT] key. SQL leaves
    the order of rows with equal keys open; nothing below depends on it. *)
Section OrderBy.
Context {A : Type} (key : A -> str).

Fixpoint insert_desc (x : A) (l : list A) : list A :=
  match l with
  | [] => [x]
  | y :: t => if str_leb (key y) (key x) then x :: l else y :: insert_desc x t
  end.

Definition order_by_desc (l : list A) : list A := foldr insert_desc [] l.
End OrderBy.

(** An uploaded file ([werkzeug.datastructures.FileStorage]): the name the
    client sent and the bytes. *)
Record file_storage := {
  file_filename : str;
  file_content : list N
}.

(** What the handlers persist outside the authorization store: the [images]
    table and the files on disk, by path. *)
Record storage := {
  images : images_table;
  files : gmap (list N) (list N)
}.

(** [app.config['UPLOAD_FOLDER']] *)
Definition UPLOAD_FOLDER : str := lit "static/uploads".

(** [os.path.join(a, b)] on a POSIX system. *)
Definition os_path_join (a b : str) : str :=
  match b with
  | 47 :: _ => b
  | _ =>
      match last a with
      | None => b
      | Some 47 => a ++ b
      | Some _ => a ++ lit "/" ++ b
      end
  end.

(** [int(b)] for a Python [bool]. *)
Definition int_of_bool (b : bool) : Z := if b then 1%Z else 0%Z.

(** [bool(n)] for a Python [int]. *)
Definition bool_of_int (n : Z) : bool := negb (n =? 0)%Z.

Section History.
(** [werkzeug.utils.secure_filename] is library code outside the repository and
    is a parameter. *)
Variable secure_filename : str -> str.

(** [file.save(filepath)]: the bytes are written to the path, replacing what
    was there. The upload folder exists at this point ([save_image] creates it
    when missing), so a path that names the folder itself cannot be opened for
    writing: the call raises [IsADirectoryError], here [None]. Other failures
    of the file system are outside the model. *)
Definition file_save (files : gmap (list N) (list N)) (filepath : str)
    (content : list N) : option (gmap (list N) (list N)) :=
  if decide (filepath = UPLOAD_FOLDER ++ lit "/") then None
  else Some (<[filepath := content]> files).

(** [save_image]: [now] is the reading of [datetime.now()] in the call. When
    [file.save] raises, the exception leaves the function before the [INSERT]:
    the result is [None] and nothing is stored. *)
Definition save_image (st : storage) (file : file_storage) (plate : str)
    (is_authorized : bool) (now : datetime) : option (str * storage) :=
  let filename := secure_filename (file_filename file) in
  let filepath := os_path_join UPLOAD_FOLDER filename in
  match file_save (files st) filepath (file_content file) with
  | None => None
  | Some files' =>
      let images' :=
        insert_image (images st) filename (isoformat now) plate
          (int_of_bool is_authorized) in
      Some (filename, {| images := images'; files := files' |})
  end.

(** [SELECT filename, upload_time, plate, is_authorized FROM images
    ORDER BY upload_time DESC] *)
Definition get_images (st : storage) : list (str * str * str * Z) :=
  List.map
    (fun r => (img_filename r, img_upload_time r, img_plate r, img_is_authorized r))
    (order_by_desc img_upload_time (img_rows (images st))).

End History.

(** ** Verdicts and responses *)

(** The [details] dictionary of a verdict: [owner], and [status] in the
    entries of the public variant's list. *)
Record details_dict := {
  owner : str;
  status : option (list N)
}.

(** The dictionary [verify_vehicle] returns. *)
Record verdict := {
  is_authorized : bool;
  plate : str;
  details : details_dict;
  message : str;
  alert_type : str
}.

(** Bodies passed to [jsonify]. *)
Inductive json_body :=
| JVerdict (result : verdict)
| JNoPlate (is_authorized : bool) (message : str) (alert_type : str)
| JMessage (message : str)
| JUploaded (message : str) (filename : str) (result : verdict)
| JImages (rows : list (list N * list N * list N * Z)).

(** What a view function returns, or, for a view that raised, the answer
    Flask gives in its place: status 500. *)
Inductive response :=
| Jsonify (body : json_body) (status : N)
| Redirect (endpoint : string)
| RenderLogin (error : option (list N))
| InternalServerError.

(** The body of [request.get_json()] as a dictionary with string values, and
    the multipart parts of an upload. *)
Record upload_request := {
  req_files : gmap string file_storage;
  req_form : gmap string (list N)
}.

(** The answer of [/scan] to a blank plate. *)
Definition no_plate_response : response :=
  Jsonify (JNoPlate false (lit "Error: No license plate detected.") (lit "warning")) 400.

(** ** The public variant: [Mini Project Container/app.py] *)
Module Container.
Section App.
Context {U : CaseMap}.
Variable secure_filename : str -> str.

(** Text-mode reading translates [\r\n] and a lone [\r] to [\n]. *)
Fixpoint universal_newlines (s : str) : str :=
  match s with
  | [] => []
  | c :: t =>
      if c =? 13 then
        match t with
        | d :: t' => if d =? 10 then 10 :: universal_newlines t'
                     else 10 :: universal_newlines t
        | [] => [10]
        end
      else c :: universal_newlines t
  end.

(** [for line in f]: the lines of the text, each with its terminator. *)
Fixpoint lines_from (cur s : str) : list (list N) :=
  match s with
  | [] => match cur with [] => [] | _ => [cur] end
  | c :: t => if c =? 10 then (cur ++ [c]) :: lines_from [] t
              else lines_from (cur ++ [c]) t
  end.

Definition readlines (content : str) : list (list N) :=
  lines_from [] (universal_newlines content).

(** The value stored for every listed plate. *)
Definition listed_entry : details_dict :=
  {| owner := lit "N/A"; status := Some (lit "Authorized") |}.

(** The body of the loop of [load_authorized_vehicles]. *)
Definition add_line (vehicles : gmap (list N) details_dict) (line : str)
    : gmap (list N) details_dict :=
  let plate := normalize line in
  match plate with
  | [] => vehicles
  | _ => <[plate := listed_entry]> vehicles
  end.

(** [load_authorized_vehicles]: [file] is the text of
    [authorized_vehicles.txt], or [None] when the file does not exist. *)
Definition load_authorized_vehicles (file : option (list N))
    : gmap (list N) details_dict :=
  match file with
  | None => ∅
  | Some content => foldl add_line ∅ (readlines content)
  end.

(** The state of the process: the module global [AUTHORIZED_VEHICLES], bound
    once when the module is loaded, and the persisted history. *)
Record state := {
  AUTHORIZED_VEHICLES : gmap (list N) details_dict;
  store : storage
}.

Definition verify_vehicle (vehicles : gmap (list N) details_dict)
    (license_plate : str) : verdict :=
  let clean_plate := normalize license_plate in
  match vehicles !! clean_plate with
  | Some entry =>
      {| is_authorized := true;
         plate := clean_plate;
         details := entry;
         message := lit "SUCCESS! Vehicle " ++ clean_plate ++ lit " is authorized.";
         alert_type := lit "success" |}
  | None =>
      {| is_authorized := false;
         plate := clean_plate;
         details := {| owner := lit "N/A"; status := None |};
         message := lit "ALERT! Vehicle " ++ clean_plate ++ lit " is UNAUTHORIZED.";
         alert_type := lit "error" |}
  end.

(** [POST /scan] *)
Definition scan_vehicle (data : gmap string (list N)) (s : state)
    : response * state :=
  let license_plate := strip (default [] (data !! "license_plate"%string)) in
  match license_plate with
  | [] => (no_plate_response, s)
  | _ => (Jsonify (JVerdict (verify_vehicle (AUTHORIZED_VEHICLES s) license_plate)) 200, s)
  end.

(** [POST /upload] *)
Definition upload_image (req : upload_request) (now : datetime) (s : state)
    : response * state :=
  match req_files req !! "image"%string with
  | None => (Jsonify (JMessage (lit "No image uploaded")) 400, s)
  | Some file =>
      match file_filename file with
      | [] => (Jsonify (JMessage (lit "No selected file")) 400, s)
      | _ =>
          let plate := default (lit "UNKNOWN") (req_form req !! "license_plate"%string) in
          let result := verify_vehicle (AUTHORIZED_VEHICLES s) plate in
          match save_image secure_filename (store s) file plate
                  (is_authorized result) now with
          | Some (filename, store') =>
              (Jsonify (JUploaded (lit "Image uploaded") filename result) 200,
               {| AUTHORIZED_VEHICLES := AUTHORIZED_VEHICLES s; store := store' |})
          | None => (InternalServerError, s)
          end
      end
  end.

(** [GET /gallery] *)
Definition gallery (s : state) : response * state :=
  (Jsonify (JImages (get_images (store s))) 200, s).

(** [GET /]: the context [index.html] is rendered with, the upload history. *)
Definition index (s : state) : list (list N * list N * list N * Z) * state :=
  (get_images (store s), s).

(** The state when the module has been loaded: [init_db()] has run and
    [AUTHORIZED_VEHICLES] is bound to the loaded list; [db] and [folder] are
    [vehicles.db] and the upload folder as found at the start. *)
Definition startup (file : option (list N)) (db : option images_table)
    (folder : gmap (list N) (list N)) : state :=
  {| AUTHORIZED_VEHICLES := load_authorized_vehicles file;
     store := {| images := init_db db; files := folder |} |}.

End App.
End Container.

(** ** The gated variant: [Mini Project Original (SAFE)/app.py] *)
Module Original.

(** A row of [users] without its unique key [username]. *)
Record user_row := {
  user_id : Z;
  password : str;
  full_name : str;
  role : str;
  created_at : str
}.

(** The dictionary [authenticate_user] returns. *)
Record user_info := {
  info_id : Z;
  info_username : str;
  info_full_name : str;
  info_role : str
}.

(** Values kept in the Flask session. *)
Inductive session_value :=
| SInt (n : Z)
| SStr (s : list N).

(** [INSERT OR IGNORE INTO users (username, password, full_name, role,
    created_at)]: the row gets the next free id unless the name is taken. *)
Definition insert_or_ignore_user (users : gmap (list N) user_row)
    (username pw name rl : str) (now : datetime) : gmap (list N) user_row :=
  match users !! username with
  | Some _ => users
  | None =>
      <[username := {| user_id := Z.of_nat (size users) + 1; password := pw;
                       full_name := name; role := rl;
                       created_at := isoformat now |}]> users
  end.

Definition sample_users : list (list N * list N * list N * list N) :=
  [ (lit "student1", lit "pass123", lit "Rahul Sharma", lit "student");
    (lit "student2", lit "pass123", lit "Priya Patel", lit "student");
    (lit "faculty1", lit "pass123", lit "Dr. Amit Kumar", lit "faculty") ].

(** [init_auth_db]: when [auth.db] does not exist the table is created and
    seeded; [clock k] is the reading of the [k]-th call of [datetime.now()]. *)
Definition init_auth_db (existing : option (gmap (list N) user_row))
    (clock : nat -> datetime) : gmap (list N) user_row :=
  match existing with
  | Some users => users
  | None =>
      let users :=
        insert_or_ignore_user ∅ (lit "admin") (lit "admin123")
          (lit "Administrator") (lit "admin") (clock 0%nat) in
      foldl (fun us '((u, p, n, r), k) => insert_or_ignore_user us u p n r (clock k))
        users (zip sample_users (seq 1 (length sample_users)))
  end.

Definition sample_rows : list (list N * list N * Z) :=
  [ (lit "MH12AB1234", lit "Aarav Mehta", 1%Z);
    (lit "DL8CAF4921", lit "Isha Kapoor", 1%Z);
    (lit "KA03MN7788", lit "Rohan Iyer", 0%Z);
    (lit "GJ01XY9900", lit "Priya Shah", 1%Z);
    (lit "UP16ZZ4321", lit "Vikram Singh", 0%Z) ].

(** [init_vehicle_db]: the table [vehicles] (plate, the primary key, to owner
    and the integer [is_authorized]) is seeded when it has no row; a missing
    [vehicle.db] is the empty table. *)
Definition init_vehicle_db (vehicles : gmap (list N) (list N * Z))
    : gmap (list N) (list N * Z) :=
  if (size vehicles =? 0)%nat then
    foldl (fun vs '(p, o, a) => <[p := (o, a)]> vs) vehicles sample_rows
  else vehicles.

(** [authenticate_user]: [SELECT id, username, full_name, role FROM users
    WHERE username = ? AND password = ?]. A form field that is absent is
    [None], which SQL compares equal to nothing. *)
Definition authenticate_user (users : gmap (list N) user_row)
    (username pw : option (list N)) : option user_info :=
  match username, pw with
  | Some u, Some p =>
      match users !! u with
      | Some row =>
          if decide (password row = p) then
            Some {| info_id := user_id row; info_username := u;
                    info_full_name := full_name row; info_role := role row |}
          else None
      | None => None
      end
  | _, _ => None
  end.

Section App.
Context {U : CaseMap}.
Variable secure_filename : str -> str.

(** The persisted state: [vehicle.db], [auth.db], and the upload history. *)
Record state := {
  vehicles : gmap (list N) (list N * Z);
  users : gmap (list N) user_row;
  store : storage
}.

Definition verify_vehicle (vehicles : gmap (list N) (list N * Z))
    (license_plate : str) : verdict :=
  let clean_plate := normalize license_plate in
  match vehicles !! clean_plate with
  | Some (row_owner, is_auth) =>
      {| is_authorized := bool_of_int is_auth;
         plate := clean_plate;
         details := {| owner := row_owner; status := None |};
         message :=
           if bool_of_int is_auth
           then lit "SUCCESS! Vehicle " ++ clean_plate ++ lit " is authorized."
           else lit "ALERT! Vehicle " ++ clean_plate ++ lit " is UNAUTHORIZED.";
         alert_type := if bool_of_int is_auth then lit "success" else lit "error" |}
  | None =>
      {| is_authorized := false;
         plate := clean_plate;
         details := {| owner := lit "UNKNOWN"; status := None |};
         message :=
           lit "ALERT! Vehicle "
           ++ match clean_plate with [] => lit "UNKNOWN" | _ => clean_plate end
           ++ lit " is UNAUTHORIZED/UNKNOWN.";
         alert_type := lit "error" |}
  end.

(** [login_required]: the decorated view runs [f] only when the session has
    the key [user_id]. *)
Definition login_required (f : state -> response * state)
    (session : gmap string session_value) (s : state) : response * state :=
  match session !! "user_id"%string with
  | None => (Redirect "login", s)
  | Some _ => f s
  end.

(** [POST /login] with the form fields, and [GET /login]. *)
Definition login (post : bool) (username pw : option (list N))
    (session : gmap string session_value) (s : state)
    : response * gmap string session_value :=
  if post then
    match authenticate_user (users s) username pw with
    | Some user =>
        (Redirect "index",
         <["role"%string := SStr (info_role user)]>
           (<["full_name"%string := SStr (info_full_name user)]>
              (<["username"%string := SStr (info_username user)]>
                 (<["user_id"%string := SInt (info_id user)]> session))))
    | None => (RenderLogin (Some (lit "Invalid username or password")), session)
    end
  else (RenderLogin None, session).

(** The view functions before decoration. *)
Definition scan_vehicle_view (data : gmap string (list N)) (s : state)
    : response * state :=
  let license_plate := strip (default [] (data !! "license_plate"%string)) in
  match license_plate with
  | [] => (no_plate_response, s)
  | _ => (Jsonify (JVerdict (verify_vehicle (vehicles s) license_plate)) 200, s)
  end.

Definition upload_image_view (req : upload_request) (now : datetime) (s : state)
    : response * state :=
  match req_files req !! "image"%string with
  | None => (Jsonify (JMessage (lit "No image uploaded")) 400, s)
  | Some file =>
      match file_filename file with
      | [] => (Jsonify (JMessage (lit "No selected file")) 400, s)
      | _ =>
          let plate := default (lit "UNKNOWN") (req_form req !! "license_plate"%string) in
          let result := verify_vehicle (vehicles s) plate in
          match save_image secure_filename (store s) file plate
                  (is_authorized result) now with
          | Some (filename, store') =>
              (Jsonify (JUploaded (lit "Image uploaded") filename result) 200,
               {| vehicles := vehicles s; users := users s; store := store' |})
          | None => (InternalServerError, s)
          end
      end
  end.

Definition gallery_view (s : state) : response * state :=
  (Jsonify (JImages (get_images (store s))) 200, s).

(** [POST /scan], [POST /upload] and [GET /gallery] as routed: each view under
    [@login_required]. *)
Definition scan_vehicle (data : gmap string (list N)) :=
  login_required (scan_vehicle_view data).

Definition upload_image (req : upload_request) (now : datetime) :=
  login_required (upload_image_view req now).

Definition gallery := login_required gallery_view.

(** [GET /logout]: [session.clear()] and the redirect to the login page. *)
Definition logout (session : gmap string session_value)
    : response * gmap string session_value :=
  (Redirect "login", ∅).

(** The context [index.html] is rendered with: the upload history and the
    user dictionary read from the session with [session.get]. *)
Record dashboard := {
  dash_images : list (list N * list N * list N * Z);
  dash_username : option session_value;
  dash_full_name : option session_value;
  dash_role : option session_value
}.

(** [GET /]: the login page without [user_id] in the session, else the
    dashboard. *)
Definition index (session : gmap string session_value) (s : state)
    : (response + dashboard) * state :=
  match session !! "user_id"%string with
  | None => (inl (RenderLogin None), s)
  | Some _ =>
      (inr {| dash_images := get_images (store s);
              dash_username := session !! "username"%string;
              dash_full_name := session !! "full_name"%string;
              dash_role := session !! "role"%string |}, s)
  end.

(** The state when the module has been loaded: [init_db()], [init_auth_db()]
    and [init_vehicle_db()] have run on what was found on disk. *)
Definition startup (db : option images_table) (folder : gmap (list N) (list N))
    (auth : option (gmap (list N) user_row)) (clock : nat -> datetime)
    (vehicle_db : gmap (list N) (list N * Z)) : state :=
  {| vehicles := init_vehicle_db vehicle_db;
     users := init_auth_db auth clock;
     store := {| images := init_db db; files := folder |} |}.

End App.
End Original.

(** ** Notions used in the statements *)

(** A string that does not begin with whitespace. *)
Definition starts_clean (s : str) : Prop :=
  match s with
  | [] => True
  | c :: _ => isspace c = false
  end.

(** [b] may follow [a] in descending order of the key. *)
Definition key_ge {A : Type} (key : A -> str) (a b : A) : Prop :=
  str_leb (key b) (key a) = true.

(** One call of [save_image]: its arguments and the clock reading in it. *)
Record upload_call := {
  call_file : file_storage;
  call_plate : str;
  call_verdict : bool;
  call_now : datetime
}.

Section Calls.
Variable secure_filename : str -> str.

(** The calls made one after the other, each in a request of its own: a
    call that raises ends its request and leaves the storage as it was. *)
Definition run_uploads (st : storage) (calls : list upload_call) : storage :=
  foldl
    (fun st c =>
       match save_image secure_filename st (call_file c) (call_plate c)
               (call_verdict c) (call_now c) with
       | Some (_, st') => st'
       | None => st
       end)
    st calls.

(** The storage after a call of [save_image] that returned. *)
Definition saved (st : storage) (file : file_storage) (plate : str)
    (is_authorized : bool) (now : datetime) : storage :=
  {| images :=
       insert_image (images st) (secure_filename (file_filename file))
         (isoformat now) plate (int_of_bool is_authorized);
     files :=
       <[os_path_join UPLOAD_FOLDER (secure_filename (file_filename file))
           := file_content file]> (files st) |}.

(** The record [get_images] shows for a call, and the same columns of a
    stored row. *)
Definition record_of (c : upload_call) : list N * list N * list N * Z :=
  (secure_filename (file_filename (call_file c)), isoformat (call_now c),
   call_plate c, int_of_bool (call_verdict c)).

Definition columns (r : image_row) : list N * list N * list N * Z :=
  (img_filename r, img_upload_time r, img_plate r, img_is_authorized r).

End Calls.

(** ** The case mapping on ASCII

    The mapping that uppercases the ASCII letters and leaves every other code
    point alone has the properties assumed of the Unicode mapping. *)

Program Definition ascii_case_map : CaseMap :=
  {| upper_char c := [ascii_upper c] |}.
Next Obligation. reflexivity. Qed.
Next Obligation.
  intros c H. simpl. f_equal. unfold ascii_upper.
  destruct (N.leb_spec 97 c), (N.leb_spec c 122); simpl; try reflexivity.
  exfalso. revert H. unfold isspace.
  rewrite !orb_true_iff, !andb_true_iff, !N.leb_le, !N.eqb_eq. lia.
Qed.
Next Obligation.
  intros c H. simpl. split; [discriminate|]. constructor; [|constructor].
  apply not_true_iff_false. apply not_true_iff_false in H.
  intros H'. apply H. revert H'. unfold isspace, ascii_upper.
  destruct (N.leb_spec 97 c), (N.leb_spec c 122); simpl;
    rewrite !orb_true_iff, !andb_true_iff, !N.leb_le, !N.eqb_eq; lia.
Qed.
Next Obligation.
  simpl. intros c d [<-|[]]. f_equal. unfold ascii_upper.
  destruct (N.leb_spec 97 c) as [H1|H1], (N.leb_spec c 122) as [H2|H2]; simpl.
  - assert ((97 <=? c - 32) = false) as -> by (apply N.leb_gt; lia).
    reflexivity.
  - apply N.leb_le in H1 as ->. apply N.leb_gt in H2 as ->. reflexivity.
  - apply N.leb_gt in H1 as ->. reflexivity.
  - apply N.leb_gt in H1 as ->. reflexivity.
Qed.

(** The characters that end a line of a text file, and the lines of a text:
    the pieces between two line ends, or between a line end and an end of the
    text, that hold no line end themselves. *)
Definition is_newline (c : char) : bool := (c =? 10) || (c =? 13).

Definition line_of (content line : str) : Prop :=
  exists pre post : list N,
    content = pre ++ line ++ post /\
    (pre = [] \/ exists pre' c, pre = pre' ++ [c] /\ is_newline c = true) /\
    (post = [] \/ exists c post', post = c :: post' /\ is_newline c = true) /\
    Forall (fun c => is_newline c = false) line.

(** The same pieces, computed: [cur] is the piece being read. *)
Fixpoint split_lines (cur s : str) : list (list N) :=
  match s with
  | [] => [cur]
  | c :: t => if is_newline c then cur :: split_lines [] t
              else split_lines (cur ++ [c]) t
  end.

Section Keys.
Context {U : CaseMap}.

(** The keys a list of lines contributes: the normalized lines that are not
    empty. *)
Definition nonblank_keys (ls : list (list N)) : list (list N) :=
  List.filter (fun k => match k with [] => false | _ => true end)
    (List.map normalize ls).

End Keys.

(** A path that begins with a slash. *)
Definition is_absolute (n : str) : bool :=
  match n with
  | 47 :: _ => true
  | _ => false
  end.

(** The rows of [images] that were stamped before [time], in text order. *)
Definition all_before (time : str) (rows : list image_row) : Prop :=
  Forall (fun r => str_compare (img_upload_time r) time = Lt) rows.

(** ** Example data *)

(** A fresh installation of the gated variant, every clock reading being
    2024-03-01 09:30:00. *)
Definition fresh_clock (k : nat) : datetime :=
  {| year := 2024; month := 3; day := 1;
     hour := 9; minute := 30; second := 0; microsecond := 0 |}.

Definition fresh_original : Original.state :=
  Original.startup None ∅ None fresh_clock ∅.

Definition fresh_container : Container.state :=
  Container.startup (U := ascii_case_map) None None ∅.

Definition car_upload : upload_request :=
  {| req_files := {[ "image"%string :=
                      {| file_filename := lit "car.jpg"; file_content := [255; 216] |} ]};
     req_form := ∅ |}.

(** Three uploads: an authorized one, a rejected one a second later, and a
    rejected one stamped on the full second in between. *)
Definition demo_calls : list upload_call :=
  [ {| call_file := {| file_filename := lit "a.jpg"; file_content := [1] |};
       call_plate := lit "MH12AB1234"; call_verdict := true;
       call_now := {| year := 2024; month := 3; day := 1; hour := 9; minute := 30;
                      second := 0; microsecond := 250000 |} |};
    {| call_file := {| file_filename := lit "b.jpg"; file_content := [2] |};
       call_plate := lit "ka03 mn7788"; call_verdict := false;
       call_now := {| year := 2024; month := 3; day := 1; hour := 9; minute := 30;
                      second := 1; microsecond := 500000 |} |};
    {| call_file := {| file_filename := lit "c.jpg"; file_content := [3] |};
       call_plate := lit "UNKNOWN"; call_verdict := false;
       call_now := {| year := 2024; month := 3; day := 1; hour := 9; minute := 30;
                      second := 1; microsecond := 0 |} |} ].

(** A session after a login, an upload with a blank plate, an upload
    without file part, and the history after the first of [demo_calls]. *)
Definition demo_session : gmap string Original.session_value :=
  {[ "user_id"%string := Original.SInt 1 ]}.

Definition blank_upload : upload_request :=
  {| req_files := {[ "image"%string :=
                      {| file_filename := lit "car.jpg"; file_content := [255; 216] |} ]};
     req_form := {[ "license_plate"%string := lit "   " ]} |}.

Definition empty_upload : upload_request :=
  {| req_files := ∅; req_form := ∅ |}.

(** A sanitizer that removes the dots of a name, and an upload whose file
    name it empties. *)
Definition without_dots (name : str) : str :=
  List.filter (fun c => negb (c =? 46)) name.

Definition dots_upload : upload_request :=
  {| req_files := {[ "image"%string :=
                      {| file_filename := lit ".."; file_content := [255; 216] |} ]};
     req_form := ∅ |}.

Definition demo_storage : storage :=
  run_uploads (fun name => name) {| images := init_db None; files := ∅ |}
    (take 1 demo_calls).

Definition demo_later : datetime :=
  {| year := 2024; month := 3; day := 1; hour := 9; minute := 30;
     second := 1; microsecond := 0 |}.

(** * Properties *)

(** ** Whitespace and stripping *)

Lemma lstrip_starts_clean (s : str) : starts_clean (lstrip s).
Proof.
  induction s as [|c t IH]; simpl; [exact I|].
  destruct (isspace c) eqn:E; [exact IH | exact E].
Qed.

Lemma lstrip_clean (s : str) : starts_clean s -> lstrip s = s.
Proof. destruct s as [|c t]; simpl; [reflexivity|]. intros ->. reflexivity. Qed.

Lemma lstrip_suffix (s : str) : exists w, s = w ++ lstrip s.
Proof.
  induction s as [|c t [w IH]]; simpl.
  - exists []. reflexivity.
  - destruct (isspace c).
    + exists (c :: w). simpl. congruence.
    + exists []. reflexivity.
Qed.

Lemma rstrip_prefix (s : str) : exists w, s = rstrip s ++ w.
Proof.
  unfold rstrip. destruct (lstrip_suffix (rev s)) as [w Hw].
  exists (rev w). rewrite <- rev_app_distr, <- Hw. symmetry. apply rev_involutive.
Qed.

Lemma strip_starts_clean (s : str) : starts_clean (strip s).
Proof.
  unfold strip. destruct (rstrip_prefix (lstrip s)) as [w Hw].
  pose proof (lstrip_starts_clean s) as Hc. rewrite Hw in Hc.
  destruct (rstrip (lstrip s)); [exact I | exact Hc].
Qed.

Lemma strip_ends_clean (s : str) : starts_clean (rev (strip s)).
Proof.
  unfold strip, rstrip. rewrite rev_involutive. apply lstrip_starts_clean.
Qed.

Lemma strip_clean (s : str) :
  starts_clean s -> starts_clean (rev s) -> strip s = s.
Proof.
  intros H1 H2. unfold strip, rstrip.
  rewrite (lstrip_clean s H1), (lstrip_clean (rev s) H2). apply rev_involutive.
Qed.

(** A string of whitespace only strips to the empty string. *)
Lemma lstrip_blank (s : str) : forallb isspace s = true -> lstrip s = [].
Proof.
  induction s as [|c t IH]; simpl; [reflexivity|].
  intros [-> Ht]%andb_true_iff. auto.
Qed.

Lemma strip_blank (s : str) : forallb isspace s = true -> strip s = [].
Proof. intros H. unfold strip. rewrite (lstrip_blank s H). reflexivity. Qed.

(** ** Normalization *)

Section NormalizeFacts.
Context {U : CaseMap}.

Lemma upper_starts_clean (s : str) : starts_clean s -> starts_clean (upper s).
Proof.
  destruct s as [|c t]; simpl; [trivial|]. intros Hc.
  destruct (upper_char_nonspace c Hc) as [Hne Hall].
  destruct (upper_char c) as [|d ds]; [congruence|].
  simpl. inversion Hall; assumption.
Qed.

Lemma upper_ends_clean (s : str) :
  starts_clean (rev s) -> starts_clean (rev (upper s)).
Proof.
  intros H. rewrite <- (rev_involutive s). unfold upper.
  destruct (rev s) as [|c r]; simpl in *; [exact I|].
  rewrite flat_map_app, rev_app_distr. simpl. rewrite app_nil_r.
  destruct (upper_char_nonspace c H) as [Hne Hall].
  apply Forall_rev in Hall.
  destruct (rev (upper_char c)) as [|d ds] eqn:E.
  - apply (f_equal (@rev N)) in E. rewrite rev_involutive in E. simpl in E. congruence.
  - simpl. inversion Hall; assumption.
Qed.

Lemma replace_space_starts_clean (s : str) :
  starts_clean s -> starts_clean (replace_space s).
Proof.
  destruct s as [|c t]; simpl; [trivial|]. intros Hc.
  assert ((c =? 32) = false) as ->.
  { apply N.eqb_neq. intros ->. discriminate Hc. }
  simpl. exact Hc.
Qed.

Lemma replace_space_ends_clean (s : str) :
  starts_clean (rev s) -> starts_clean (rev (replace_space s)).
Proof.
  intros H. unfold replace_space. rewrite <- filter_rev.
  apply replace_space_starts_clean, H.
Qed.

Lemma replace_space_idem (s : str) :
  replace_space (replace_space s) = replace_space s.
Proof.
  induction s as [|c t IH]; simpl; [reflexivity|].
  destruct (c =? 32) eqn:E; simpl; [exact IH|]. rewrite E. simpl. congruence.
Qed.

Lemma upper_fixed (s : str) :
  Forall (fun d => upper_char d = [d]) s -> upper s = s.
Proof.
  unfold upper. induction 1 as [|d t Hd _ IH]; simpl; [reflexivity|].
  rewrite Hd. simpl. congruence.
Qed.

Lemma upper_upper (s : str) : upper (upper s) = upper s.
Proof.
  apply upper_fixed, List.Forall_forall. intros d Hd.
  apply in_flat_map in Hd as (c & _ & Hd). eapply upper_char_fixed, Hd.
Qed.

Lemma normalize_fixed_chars (p : str) :
  Forall (fun d => upper_char d = [d]) (normalize p).
Proof.
  apply List.Forall_forall. intros d Hd. unfold normalize, replace_space in Hd.
  apply filter_In in Hd as [Hd _].
  apply in_flat_map in Hd as (c & _ & Hd). eapply upper_char_fixed, Hd.
Qed.

Lemma normalize_stripped (p : str) : strip (normalize p) = normalize p.
Proof.
  apply strip_clean; unfold normalize.
  - apply replace_space_starts_clean, upper_starts_clean, strip_starts_clean.
  - apply replace_space_ends_clean, upper_ends_clean, strip_ends_clean.
Qed.

(** C7: plate normalization, [strip().upper().replace(" ", "")], is
    idempotent: normalizing a normalized plate changes nothing. *)
Theorem normalize_idempotent (p : str) :
  normalize (normalize p) = normalize p.
Proof.
  unfold normalize at 1.
  rewrite normalize_stripped, (upper_fixed _ (normalize_fixed_chars p)).
  unfold normalize. apply replace_space_idem.
Qed.

Example normalize_example :
  normalize (U := ascii_case_map) (lit "  mh12 ab1234 ") = lit "MH12AB1234".
Proof. vm_compute. reflexivity. Qed.

(** A blank plate normalizes to the empty string. *)
Lemma normalize_blank (p : str) : forallb isspace p = true -> normalize p = [].
Proof. intros H. unfold normalize. rewrite (strip_blank p H). reflexivity. Qed.

(** On ASCII text [upper] is the ASCII uppercase of every code point. *)
Lemma upper_ascii (s : str) :
  Forall (fun c => c < 128) s -> upper s = List.map ascii_upper s.
Proof.
  unfold upper. induction 1 as [|c t Hc _ IH]; simpl; [reflexivity|].
  rewrite (upper_char_ascii c Hc). simpl. congruence.
Qed.

Lemma strip_ascii (s : str) :
  Forall (fun c => c < 128) s -> Forall (fun c => c < 128) (strip s).
Proof.
  intros H. destruct (lstrip_suffix s) as [w Hw].
  destruct (rstrip_prefix (lstrip s)) as [v Hv].
  rewrite Hw, Hv in H. apply Forall_app in H as [_ H].
  apply Forall_app in H as [H _]. exact H.
Qed.

(** What [normalize] computes on ASCII text, free of the case mapping. *)
Lemma normalize_ascii (p : str) :
  forallb (fun c => c <? 128) p = true ->
  normalize p = List.filter (fun c => negb (c =? 32)) (List.map ascii_upper (strip p)).
Proof.
  intros H. unfold normalize, replace_space. f_equal. apply upper_ascii, strip_ascii.
  apply List.Forall_forall. intros c Hc.
  rewrite forallb_forall in H. apply N.ltb_lt, H, Hc.
Qed.

End NormalizeFacts.

(** ** Verdicts of [verify_vehicle] *)

Section Verdicts.
Context {U : CaseMap}.

(** C1: in the gated variant with the seeded store, [verify_vehicle] on
    ["mh12 ab1234"] answers authorized, with the plate normalized to
    ["MH12AB1234"], the owner ["Aarav Mehta"] and the alert type ["success"]. *)
Theorem verify_seeded_authorized :
  Original.verify_vehicle (Original.init_vehicle_db ∅) (lit "mh12 ab1234") =
  {| is_authorized := true;
     plate := lit "MH12AB1234";
     details := {| owner := lit "Aarav Mehta"; status := None |};
     message := lit "SUCCESS! Vehicle MH12AB1234 is authorized.";
     alert_type := lit "success" |}.
Proof.
  unfold Original.verify_vehicle.
  rewrite normalize_ascii by reflexivity.
  vm_compute. reflexivity.
Qed.

(** C3: in the gated variant, a plate whose normalized form is stored with
    [is_authorized = 0] gets the verdict not authorized, alert type
    ["error"], and the owner of the stored row. *)
Theorem verify_known_blocked (vs : gmap (list N) (list N * Z)) (p o : str) :
  vs !! normalize p = Some (o, 0%Z) ->
  is_authorized (Original.verify_vehicle vs p) = false /\
  alert_type (Original.verify_vehicle vs p) = lit "error" /\
  owner (details (Original.verify_vehicle vs p)) = o.
Proof.
  intros H. unfold Original.verify_vehicle. rewrite H. simpl. auto.
Qed.

(** Scenario B on the seeded store, for every case mapping. *)
Lemma verify_seeded_blocked :
  Original.verify_vehicle (Original.init_vehicle_db ∅) (lit "KA03MN7788") =
  {| is_authorized := false;
     plate := lit "KA03MN7788";
     details := {| owner := lit "Rohan Iyer"; status := None |};
     message := lit "ALERT! Vehicle KA03MN7788 is UNAUTHORIZED.";
     alert_type := lit "error" |}.
Proof.
  unfold Original.verify_vehicle.
  rewrite normalize_ascii by reflexivity.
  vm_compute. reflexivity.
Qed.

(** The two wordings of the gated variant's alert never produce the same
    message. *)
Lemma alert_messages_differ (a b : str) :
  lit "ALERT! Vehicle " ++ a ++ lit " is UNAUTHORIZED." <>
  lit "ALERT! Vehicle " ++ b ++ lit " is UNAUTHORIZED/UNKNOWN.".
Proof.
  intros H. apply (f_equal (@rev N)) in H.
  rewrite !rev_app_distr in H.
  replace (rev (lit " is UNAUTHORIZED."))
    with (46 :: 68 :: rev (lit " is UNAUTHORIZE")) in H by reflexivity.
  replace (rev (lit " is UNAUTHORIZED/UNKNOWN."))
    with (46 :: 78 :: rev (lit " is UNAUTHORIZED/UNKNOW")) in H by reflexivity.
  rewrite <- !app_comm_cons in H. injection H as H. discriminate H.
Qed.

(** C4: a plate whose normalized form is absent from the store gets the
    verdict not authorized with alert type ["error"]; the owner is
    ["UNKNOWN"] in the gated variant and ["N/A"] in the public variant. In the
    gated variant the message of this verdict differs from the message of
    every verdict on a stored, blocked plate. *)
Theorem verify_unknown (p : str) :
  (forall vs : gmap (list N) (list N * Z),
     vs !! normalize p = None ->
     is_authorized (Original.verify_vehicle vs p) = false /\
     alert_type (Original.verify_vehicle vs p) = lit "error" /\
     owner (details (Original.verify_vehicle vs p)) = lit "UNKNOWN" /\
     forall (vs' : gmap (list N) (list N * Z)) (q o : str),
       vs' !! normalize q = Some (o, 0%Z) ->
       message (Original.verify_vehicle vs' q) <>
       message (Original.verify_vehicle vs p)) /\
  (forall av : gmap (list N) details_dict,
     av !! normalize p = None ->
     is_authorized (Container.verify_vehicle av p) = false /\
     alert_type (Container.verify_vehicle av p) = lit "error" /\
     owner (details (Container.verify_vehicle av p)) = lit "N/A").
Proof.
  split.
  - intros vs H. unfold Original.verify_vehicle at 1 2 3. rewrite H. simpl.
    repeat split. intros vs' q o Hq.
    unfold Original.verify_vehicle. rewrite H, Hq. simpl.
    apply alert_messages_differ.
  - intros av H. unfold Container.verify_vehicle. rewrite H. simpl. auto.
Qed.

End Verdicts.

Lemma verify_known_blocked_witness :
  Original.init_vehicle_db ∅ !! normalize (U := ascii_case_map) (lit "KA03MN7788")
    = Some (lit "Rohan Iyer", 0%Z) /\
  (is_authorized
     (Original.verify_vehicle (U := ascii_case_map) (Original.init_vehicle_db ∅)
        (lit "KA03MN7788")) = false /\
   alert_type
     (Original.verify_vehicle (U := ascii_case_map) (Original.init_vehicle_db ∅)
        (lit "KA03MN7788")) = lit "error" /\
   owner (details
     (Original.verify_vehicle (U := ascii_case_map) (Original.init_vehicle_db ∅)
        (lit "KA03MN7788"))) = lit "Rohan Iyer").
Proof.
  split; [vm_compute; reflexivity |].
  apply (verify_known_blocked (U := ascii_case_map)). vm_compute. reflexivity.
Defined.

Lemma verify_unknown_witness :
  Original.init_vehicle_db ∅ !! normalize (U := ascii_case_map) (lit "ZZ99ZZ9999") = None /\
  owner (details
    (Original.verify_vehicle (U := ascii_case_map) (Original.init_vehicle_db ∅)
       (lit "ZZ99ZZ9999"))) = lit "UNKNOWN" /\
  (∅ : gmap (list N) details_dict) !! normalize (U := ascii_case_map) (lit "ZZ99ZZ9999") = None /\
  owner (details
    (Container.verify_vehicle (U := ascii_case_map) ∅ (lit "ZZ99ZZ9999"))) = lit "N/A".
Proof.
  destruct (verify_unknown (U := ascii_case_map) (lit "ZZ99ZZ9999")) as [Hg Hp].
  assert (Original.init_vehicle_db ∅ !! normalize (U := ascii_case_map) (lit "ZZ99ZZ9999") = None)
    as H1 by (vm_compute; reflexivity).
  assert ((∅ : gmap (list N) details_dict) !! normalize (U := ascii_case_map) (lit "ZZ99ZZ9999") = None)
    as H2 by (vm_compute; reflexivity).
  split; [exact H1|]. split; [apply (Hg _ H1)|]. split; [exact H2|]. apply (Hp _ H2).
Defined.

(** ** Blank plates *)

Section Blank.
Context {U : CaseMap}.

(** [verify_vehicle] has no check for a blank plate: it looks the empty plate
    up like any other. *)
Lemma verify_blank_gated (vs : gmap (list N) (list N * Z)) (p : str) :
  forallb isspace p = true -> vs !! ([] : list N) = None ->
  Original.verify_vehicle vs p =
  {| is_authorized := false;
     plate := [];
     details := {| owner := lit "UNKNOWN"; status := None |};
     message := lit "ALERT! Vehicle UNKNOWN is UNAUTHORIZED/UNKNOWN.";
     alert_type := lit "error" |}.
Proof.
  intros Hp Hv. unfold Original.verify_vehicle.
  rewrite (normalize_blank p Hp), Hv. reflexivity.
Qed.

Lemma verify_blank_public (av : gmap (list N) details_dict) (p : str) :
  forallb isspace p = true -> av !! ([] : list N) = None ->
  Container.verify_vehicle av p =
  {| is_authorized := false;
     plate := [];
     details := {| owner := lit "N/A"; status := None |};
     message := lit "ALERT! Vehicle  is UNAUTHORIZED.";
     alert_type := lit "error" |}.
Proof.
  intros Hp Hv. unfold Container.verify_vehicle.
  rewrite (normalize_blank p Hp), Hv. reflexivity.
Qed.

(** C2, amended: for every store, [/scan] answers an empty or all-whitespace
    plate with alert type ["warning"], not authorized, status 400, and leaves
    the state alone; the check is made by the route, in both variants (in the
    gated one behind the login), before [verify_vehicle] is called. *)
Theorem scan_blank_plate (data : gmap string (list N)) :
  forallb isspace (default [] (data !! "license_plate"%string)) = true ->
  (forall s : Container.state,
     Container.scan_vehicle data s =
     (Jsonify (JNoPlate false (lit "Error: No license plate detected.")
                 (lit "warning")) 400, s)) /\
  (forall (session : gmap string Original.session_value) (s : Original.state),
     is_Some (session !! "user_id"%string) ->
     Original.scan_vehicle data session s =
     (Jsonify (JNoPlate false (lit "Error: No license plate detected.")
                 (lit "warning")) 400, s)).
Proof.
  intros H. split.
  - intros s. unfold Container.scan_vehicle. rewrite (strip_blank _ H). reflexivity.
  - intros session s [v Hv].
    unfold Original.scan_vehicle, Original.login_required, Original.scan_vehicle_view.
    rewrite Hv, (strip_blank _ H). reflexivity.
Qed.

End Blank.

(** C2 as stated fails: on the seeded store, [verify_vehicle] applied to the
    all-whitespace plate ["   "] answers with alert type ["error"]. *)
Lemma verify_blank_not_warning :
  alert_type
    (Original.verify_vehicle (U := ascii_case_map) (Original.init_vehicle_db ∅)
       (lit "   ")) = lit "error" /\
  alert_type
    (Original.verify_vehicle (U := ascii_case_map) (Original.init_vehicle_db ∅)
       (lit "   ")) <> lit "warning".
Proof.
  assert (alert_type
    (Original.verify_vehicle (U := ascii_case_map) (Original.init_vehicle_db ∅)
       (lit "   ")) = lit "error") as E by (vm_compute; reflexivity).
  split; [exact E|]. rewrite E. vm_compute. discriminate.
Qed.

Lemma scan_blank_plate_witness :
  forallb isspace
    (default [] (({[ "license_plate"%string := lit "   " ]} : gmap string (list N))
                   !! "license_plate"%string)) = true /\
  Original.scan_vehicle (U := ascii_case_map)
    {[ "license_plate"%string := lit "   " ]}
    {[ "user_id"%string := Original.SInt 1 ]}
    {| Original.vehicles := Original.init_vehicle_db ∅;
       Original.users := ∅;
       Original.store := {| images := init_db None; files := ∅ |} |} =
  (Jsonify (JNoPlate false (lit "Error: No license plate detected.")
              (lit "warning")) 400,
   {| Original.vehicles := Original.init_vehicle_db ∅;
      Original.users := ∅;
      Original.store := {| images := init_db None; files := ∅ |} |}).
Proof.
  assert (forallb isspace
    (default [] (({[ "license_plate"%string := lit "   " ]} : gmap string (list N))
                   !! "license_plate"%string)) = true) as H
    by (vm_compute; reflexivity).
  split; [exact H|].
  apply (scan_blank_plate (U := ascii_case_map) _ H).
  exists (Original.SInt 1). vm_compute. reflexivity.
Defined.

(** ** Session gating and login *)

Section Gate.
Context {U : CaseMap}.
Variable secure_filename : str -> str.

(** C6: in the gated variant, without the key [user_id] in the session the
    routes [/scan], [/upload] and [/gallery] answer with the redirect to the
    login page, which carries no verdict and no upload record, and leave the
    state as it was. *)
Theorem login_required_blocks (session : gmap string Original.session_value)
    (s : Original.state) (data : gmap string (list N)) (req : upload_request)
    (now : datetime) :
  session !! "user_id"%string = None ->
  Original.scan_vehicle data session s = (Redirect "login", s) /\
  Original.upload_image secure_filename req now session s = (Redirect "login", s) /\
  Original.gallery session s = (Redirect "login", s).
Proof.
  intros H.
  unfold Original.scan_vehicle, Original.upload_image, Original.gallery,
    Original.login_required.
  rewrite H. auto.
Qed.

(** With [user_id] in the session the decorated view is the view. *)
Lemma login_required_passes (f : Original.state -> response * Original.state)
    (session : gmap string Original.session_value) (s : Original.state) :
  is_Some (session !! "user_id"%string) -> Original.login_required f session s = f s.
Proof. intros [v Hv]. unfold Original.login_required. rewrite Hv. reflexivity. Qed.

End Gate.

(** [authenticate_user] returns a user exactly for a stored name with the
    stored password. *)
Lemma authenticate_user_Some (users : gmap (list N) Original.user_row)
    (u p : option (list N)) (info : Original.user_info) :
  Original.authenticate_user users u p = Some info <->
  exists name row,
    u = Some name /\ p = Some (Original.password row) /\ users !! name = Some row /\
    info = {| Original.info_id := Original.user_id row;
              Original.info_username := name;
              Original.info_full_name := Original.full_name row;
              Original.info_role := Original.role row |}.
Proof.
  unfold Original.authenticate_user. split.
  - destruct u as [name|], p as [pw|]; try discriminate.
    destruct (users !! name) as [row|] eqn:E; try discriminate.
    destruct (decide (Original.password row = pw)) as [<-|]; try discriminate.
    intros [= <-]. exists name, row. auto.
  - intros (name & row & -> & -> & -> & ->).
    destruct (decide (Original.password row = Original.password row)); congruence.
Qed.

(** C9: in the gated variant a login with a name that is not in [users] and
    a login with a stored name and a wrong password get the same answer, the
    login page with the one error text, and the session is left as it was. *)
Theorem login_rejections_identical (s : Original.state)
    (session : gmap string Original.session_value)
    (unknown pw known wrong : str) (row : Original.user_row) :
  Original.users s !! unknown = None ->
  Original.users s !! known = Some row ->
  Original.password row <> wrong ->
  Original.login true (Some unknown) (Some pw) session s =
    (RenderLogin (Some (lit "Invalid username or password")), session) /\
  Original.login true (Some known) (Some wrong) session s =
    (RenderLogin (Some (lit "Invalid username or password")), session).
Proof.
  intros Hu Hk Hw. unfold Original.login, Original.authenticate_user.
  rewrite Hu, Hk. destruct (decide (Original.password row = wrong)); [contradiction|].
  auto.
Qed.

Lemma login_required_blocks_witness :
  (∅ : gmap string Original.session_value) !! "user_id"%string = None /\
  Original.scan_vehicle (U := ascii_case_map)
    {[ "license_plate"%string := lit "MH12AB1234" ]} ∅ fresh_original
    = (Redirect "login", fresh_original) /\
  Original.upload_image (U := ascii_case_map) (fun name => name)
    {| req_files := {[ "image"%string :=
                        {| file_filename := lit "car.jpg"; file_content := [255; 216] |} ]};
       req_form := {[ "license_plate"%string := lit "MH12AB1234" ]} |}
    (fresh_clock 0) ∅ fresh_original
    = (Redirect "login", fresh_original) /\
  Original.gallery ∅ fresh_original = (Redirect "login", fresh_original).
Proof.
  split; [reflexivity|].
  apply (login_required_blocks (U := ascii_case_map)). reflexivity.
Defined.

Lemma login_rejections_identical_witness :
  Original.users fresh_original !! lit "nobody" = None /\
  Original.users fresh_original !! lit "admin" =
    Some {| Original.user_id := 1; Original.password := lit "admin123";
            Original.full_name := lit "Administrator"; Original.role := lit "admin";
            Original.created_at := lit "2024-03-01T09:30:00" |} /\
  lit "admin123" <> lit "letmein" /\
  Original.login true (Some (lit "nobody")) (Some (lit "letmein")) ∅ fresh_original =
    (RenderLogin (Some (lit "Invalid username or password")), ∅) /\
  Original.login true (Some (lit "admin")) (Some (lit "letmein")) ∅ fresh_original =
    (RenderLogin (Some (lit "Invalid username or password")), ∅).
Proof.
  assert (Original.users fresh_original !! lit "nobody" = None) as H1
    by (vm_compute; reflexivity).
  assert (Original.users fresh_original !! lit "admin" =
    Some {| Original.user_id := 1; Original.password := lit "admin123";
            Original.full_name := lit "Administrator"; Original.role := lit "admin";
            Original.created_at := lit "2024-03-01T09:30:00" |}) as H2
    by (vm_compute; reflexivity).
  assert (lit "admin123" <> lit "letmein") as H3 by (vm_compute; discriminate).
  split; [exact H1|]. split; [exact H2|]. split; [exact H3|].
  exact (login_rejections_identical fresh_original ∅ (lit "nobody") (lit "letmein")
           (lit "admin") (lit "letmein") _ H1 H2 H3).
Defined.

(** ** Uploads without a plate field *)

Lemma is_absolute_head (n : str) : is_absolute n = true -> exists t, n = 47 :: t.
Proof.
  destruct n as [|c t]; [discriminate|].
  destruct (N.eqb_spec c 47) as [->|Hc]; [eexists; reflexivity|].
  unfold is_absolute. destruct c as [|q]; [discriminate|].
  do 6 (destruct q as [q|q|]; try discriminate). congruence.
Qed.

Lemma upload_path (n : str) :
  os_path_join UPLOAD_FOLDER n =
  if is_absolute n then n else lit "static/uploads/" ++ n.
Proof.
  destruct n as [|c t]; [reflexivity|]. unfold os_path_join, is_absolute.
  destruct c as [|q]; [reflexivity|].
  do 6 (destruct q as [q|q|]; try reflexivity).
Qed.

Lemma os_path_join_inj (a b : str) :
  os_path_join UPLOAD_FOLDER a = os_path_join UPLOAD_FOLDER b -> a = b.
Proof.
  rewrite !upload_path.
  destruct (is_absolute a) eqn:Ea, (is_absolute b) eqn:Eb.
  - trivial.
  - apply is_absolute_head in Ea as [t ->]. discriminate.
  - apply is_absolute_head in Eb as [t ->]. discriminate.
  - apply app_inv_head.
Qed.

Section Upload.
Context {U : CaseMap}.
Variable secure_filename : str -> str.

Lemma normalize_UNKNOWN : normalize (lit "UNKNOWN") = lit "UNKNOWN".
Proof. rewrite normalize_ascii by reflexivity. vm_compute. reflexivity. Qed.

(** [file.save] raises exactly for the empty sanitized name. *)
Lemma file_save_upload (fs : gmap (list N) (list N)) (name content : str) :
  file_save fs (os_path_join UPLOAD_FOLDER name) content =
  match name with
  | [] => None
  | _ => Some (<[os_path_join UPLOAD_FOLDER name := content]> fs)
  end.
Proof.
  unfold file_save.
  destruct (decide (os_path_join UPLOAD_FOLDER name = UPLOAD_FOLDER ++ lit "/"))
    as [E|E].
  - change (UPLOAD_FOLDER ++ lit "/") with (os_path_join UPLOAD_FOLDER []) in E.
    apply os_path_join_inj in E. rewrite E. reflexivity.
  - destruct name; [|reflexivity]. exfalso. apply E. reflexivity.
Qed.

(** [save_image] returns, with the row appended and the file written, when
    the sanitized name is not empty, and raises when it is. *)
Lemma save_image_Some (st : storage) (file : file_storage) (p : str) (a : bool)
    (now : datetime) :
  secure_filename (file_filename file) <> [] ->
  save_image secure_filename st file p a now =
  Some (secure_filename (file_filename file), saved secure_filename st file p a now).
Proof.
  intros H. unfold save_image, saved. rewrite file_save_upload.
  destruct (secure_filename (file_filename file)); [congruence | reflexivity].
Qed.

Lemma save_image_None (st : storage) (file : file_storage) (p : str) (a : bool)
    (now : datetime) :
  secure_filename (file_filename file) = [] ->
  save_image secure_filename st file p a now = None.
Proof.
  intros H. unfold save_image. rewrite file_save_upload, H. reflexivity.
Qed.

(** The row a call of [save_image] that returns has appended. *)
Lemma saved_rows (st : storage) (file : file_storage) (p : str) (a : bool)
    (now : datetime) :
  img_rows (images (saved secure_filename st file p a now)) =
  img_rows (images st) ++
    [ {| img_id := img_seq (images st) + 1;
         img_filename := secure_filename (file_filename file);
         img_upload_time := isoformat now;
         img_plate := p;
         img_is_authorized := int_of_bool a |} ].
Proof. reflexivity. Qed.

Lemma container_upload_eq (req : upload_request) (file : file_storage)
    (now : datetime) (s : Container.state) :
  req_files req !! "image"%string = Some file ->
  file_filename file <> [] ->
  secure_filename (file_filename file) <> [] ->
  let raw := default (lit "UNKNOWN") (req_form req !! "license_plate"%string) in
  let result := Container.verify_vehicle (Container.AUTHORIZED_VEHICLES s) raw in
  Container.upload_image secure_filename req now s =
  (Jsonify (JUploaded (lit "Image uploaded")
              (secure_filename (file_filename file)) result) 200,
   {| Container.AUTHORIZED_VEHICLES := Container.AUTHORIZED_VEHICLES s;
      Container.store :=
        saved secure_filename (Container.store s) file raw (is_authorized result) now |}).
Proof.
  intros Hfile Hname Hsafe raw result. unfold Container.upload_image. rewrite Hfile.
  destruct (file_filename file) as [|c name] eqn:E; [congruence|].
  rewrite <- E in *. cbv zeta. rewrite (save_image_Some _ _ _ _ _ Hsafe). reflexivity.
Qed.

Lemma original_upload_eq (req : upload_request) (file : file_storage)
    (now : datetime) (session : gmap string Original.session_value)
    (s : Original.state) :
  is_Some (session !! "user_id"%string) ->
  req_files req !! "image"%string = Some file ->
  file_filename file <> [] ->
  secure_filename (file_filename file) <> [] ->
  let raw := default (lit "UNKNOWN") (req_form req !! "license_plate"%string) in
  let result := Original.verify_vehicle (Original.vehicles s) raw in
  Original.upload_image secure_filename req now session s =
  (Jsonify (JUploaded (lit "Image uploaded")
              (secure_filename (file_filename file)) result) 200,
   {| Original.vehicles := Original.vehicles s;
      Original.users := Original.users s;
      Original.store :=
        saved secure_filename (Original.store s) file raw (is_authorized result) now |}).
Proof.
  intros [v Hv] Hfile Hname Hsafe raw result.
  unfold Original.upload_image, Original.login_required, Original.upload_image_view.
  rewrite Hv, Hfile.
  destruct (file_filename file) as [|c name] eqn:E; [congruence|].
  rewrite <- E in *. cbv zeta. rewrite (save_image_Some _ _ _ _ _ Hsafe). reflexivity.
Qed.

(** C10: an upload that has the file part [image] with a file name, which
    the sanitizer does not empty, but no form field [license_plate] is handled
    with the plate ["UNKNOWN"]: the verdict in the answer is
    [verify_vehicle "UNKNOWN"], the appended row has the plate ["UNKNOWN"] and
    the flag of that verdict, and in a store that does not list ["UNKNOWN"]
    the verdict is not authorized with alert type ["error"]. *)
Theorem upload_without_plate (req : upload_request) (file : file_storage)
    (now : datetime) :
  req_files req !! "image"%string = Some file ->
  file_filename file <> [] ->
  secure_filename (file_filename file) <> [] ->
  req_form req !! "license_plate"%string = None ->
  (forall (session : gmap string Original.session_value) (s : Original.state),
     is_Some (session !! "user_id"%string) ->
     let result := Original.verify_vehicle (Original.vehicles s) (lit "UNKNOWN") in
     let out := Original.upload_image secure_filename req now session s in
     out.1 = Jsonify (JUploaded (lit "Image uploaded")
                        (secure_filename (file_filename file)) result) 200 /\
     img_rows (images (Original.store out.2)) =
       img_rows (images (Original.store s)) ++
         [ {| img_id := img_seq (images (Original.store s)) + 1;
              img_filename := secure_filename (file_filename file);
              img_upload_time := isoformat now;
              img_plate := lit "UNKNOWN";
              img_is_authorized := int_of_bool (is_authorized result) |} ] /\
     (Original.vehicles s !! lit "UNKNOWN" = None ->
      is_authorized result = false /\ alert_type result = lit "error" /\
      owner (details result) = lit "UNKNOWN")) /\
  (forall s : Container.state,
     let result := Container.verify_vehicle (Container.AUTHORIZED_VEHICLES s) (lit "UNKNOWN") in
     let out := Container.upload_image secure_filename req now s in
     out.1 = Jsonify (JUploaded (lit "Image uploaded")
                        (secure_filename (file_filename file)) result) 200 /\
     img_rows (images (Container.store out.2)) =
       img_rows (images (Container.store s)) ++
         [ {| img_id := img_seq (images (Container.store s)) + 1;
              img_filename := secure_filename (file_filename file);
              img_upload_time := isoformat now;
              img_plate := lit "UNKNOWN";
              img_is_authorized := int_of_bool (is_authorized result) |} ] /\
     (Container.AUTHORIZED_VEHICLES s !! lit "UNKNOWN" = None ->
      is_authorized result = false /\ alert_type result = lit "error" /\
      owner (details result) = lit "N/A")).
Proof.
  intros Hfile Hname Hsafe Hform. split.
  - intros session s Hs result out. subst out.
    rewrite (original_upload_eq req file now session s Hs Hfile Hname Hsafe), Hform.
    repeat split; try reflexivity.
    all: subst result; unfold Original.verify_vehicle;
      rewrite normalize_UNKNOWN, H; reflexivity.
  - intros s result out. subst out.
    rewrite (container_upload_eq req file now s Hfile Hname Hsafe), Hform.
    repeat split; try reflexivity.
    all: subst result; unfold Container.verify_vehicle;
      rewrite normalize_UNKNOWN, H; reflexivity.
Qed.

End Upload.

Lemma upload_without_plate_witness :
  req_files car_upload !! "image"%string =
    Some {| file_filename := lit "car.jpg"; file_content := [255; 216] |} /\
  lit "car.jpg" <> [] /\
  req_form car_upload !! "license_plate"%string = None /\
  (Original.upload_image (U := ascii_case_map) (fun name => name) car_upload
     (fresh_clock 0) {[ "user_id"%string := Original.SInt 1 ]} fresh_original).1 =
    Jsonify (JUploaded (lit "Image uploaded") (lit "car.jpg")
               (Original.verify_vehicle (U := ascii_case_map)
                  (Original.vehicles fresh_original) (lit "UNKNOWN"))) 200 /\
  alert_type (Original.verify_vehicle (U := ascii_case_map)
                (Original.vehicles fresh_original) (lit "UNKNOWN")) = lit "error" /\
  (Container.upload_image (U := ascii_case_map) (fun name => name) car_upload
     (fresh_clock 0) fresh_container).1 =
    Jsonify (JUploaded (lit "Image uploaded") (lit "car.jpg")
               (Container.verify_vehicle (U := ascii_case_map)
                  (Container.AUTHORIZED_VEHICLES fresh_container) (lit "UNKNOWN"))) 200 /\
  alert_type (Container.verify_vehicle (U := ascii_case_map)
                (Container.AUTHORIZED_VEHICLES fresh_container) (lit "UNKNOWN")) = lit "error".
Proof.
  assert (req_files car_upload !! "image"%string =
    Some {| file_filename := lit "car.jpg"; file_content := [255; 216] |}) as H1
    by (vm_compute; reflexivity).
  assert (lit "car.jpg" <> []) as H2 by (vm_compute; discriminate).
  assert (req_form car_upload !! "license_plate"%string = None) as H3
    by (vm_compute; reflexivity).
  assert (is_Some (({[ "user_id"%string := Original.SInt 1 ]}
                      : gmap string Original.session_value) !! "user_id"%string)) as H4
    by (exists (Original.SInt 1); vm_compute; reflexivity).
  assert (Original.vehicles fresh_original !! lit "UNKNOWN" = None) as H5
    by (vm_compute; reflexivity).
  assert (Container.AUTHORIZED_VEHICLES fresh_container !! lit "UNKNOWN" = None) as H6
    by (vm_compute; reflexivity).
  destruct (upload_without_plate (U := ascii_case_map) (fun name => name)
              car_upload _ (fresh_clock 0) H1 H2 H2 H3) as [Hg Hp].
  destruct (Hg _ fresh_original H4) as (Hg1 & _ & Hg3).
  destruct (Hp fresh_container) as (Hp1 & _ & Hp3).
  split; [exact H1|]. split; [exact H2|]. split; [exact H3|].
  split; [exact Hg1|]. split; [exact (proj1 (proj2 (Hg3 H5)))|].
  split; [exact Hp1|]. exact (proj1 (proj2 (Hp3 H6))).
Defined.

(** ** The public variant's list *)

Section PublicList.
Context {U : CaseMap}.

Lemma add_line_lookup (vehicles : gmap (list N) details_dict) (line k : str) :
  Container.add_line vehicles line !! k =
  if decide (normalize line = k /\ k <> []) then Some Container.listed_entry
  else vehicles !! k.
Proof.
  unfold Container.add_line. cbv zeta. destruct (normalize line) as [|c r] eqn:E.
  - destruct (decide _) as [[<- H]|_]; [congruence | reflexivity].
  - destruct (decide _) as [[<- H]|H].
    + apply lookup_insert_eq.
    + apply lookup_insert_ne. intros <-. apply H. split; [reflexivity | discriminate].
Qed.

Lemma load_fold_keeps (lines : list (list N)) (acc : gmap (list N) details_dict) (k : str) :
  acc !! k = Some Container.listed_entry ->
  foldl Container.add_line acc lines !! k = Some Container.listed_entry.
Proof.
  revert acc. induction lines as [|x t IH]; intros acc H; simpl; [exact H|].
  apply IH. rewrite add_line_lookup. destruct (decide _); [reflexivity | exact H].
Qed.

Lemma load_fold_listed (lines : list (list N)) (acc : gmap (list N) details_dict)
    (line : str) :
  In line lines -> normalize line <> [] ->
  foldl Container.add_line acc lines !! normalize line = Some Container.listed_entry.
Proof.
  revert acc. induction lines as [|x t IH]; intros acc Hin Hne; [destruct Hin|].
  simpl. destruct Hin as [->|Hin]; [|apply IH; assumption].
  apply load_fold_keeps. rewrite add_line_lookup.
  destruct (decide _) as [_|H]; [reflexivity|]. exfalso. apply H. auto.
Qed.

Lemma load_fold_only (lines : list (list N)) (acc : gmap (list N) details_dict)
    (k : str) (e : details_dict) :
  foldl Container.add_line acc lines !! k = Some e ->
  acc !! k = Some e \/
  (e = Container.listed_entry /\ k <> [] /\
   exists line, In line lines /\ normalize line = k).
Proof.
  revert acc. induction lines as [|x t IH]; intros acc H; simpl in H; [auto|].
  destruct (IH _ H) as [H'|(-> & Hk & line & Hin & Hl)].
  - rewrite add_line_lookup in H'. destruct (decide _) as [[Hx Hk]|_].
    + right. injection H' as <-. split; [reflexivity|]. split; [exact Hk|].
      exists x. split; [left; reflexivity | exact Hx].
    + auto.
  - right. split; [reflexivity|]. split; [exact Hk|].
    exists line. split; [right; exact Hin | exact Hl].
Qed.

End PublicList.

Lemma rstrip_snoc (s : str) (c : char) :
  rstrip (s ++ [c]) = if isspace c then rstrip s else s ++ [c].
Proof.
  unfold rstrip. rewrite rev_app_distr. simpl.
  destruct (isspace c); [reflexivity|].
  simpl. rewrite rev_involutive. reflexivity.
Qed.

Lemma lstrip_snoc (s : str) (c : char) :
  lstrip (s ++ [c]) =
  match lstrip s with
  | [] => lstrip [c]
  | _ => lstrip s ++ [c]
  end.
Proof.
  induction s as [|x t IH]; [reflexivity|].
  simpl. destruct (isspace x); [exact IH | reflexivity].
Qed.

(** Whitespace at the end of a string, such as the line end, is stripped. *)
Lemma strip_snoc_space (s : str) (c : char) :
  isspace c = true -> strip (s ++ [c]) = strip s.
Proof.
  intros Hc. unfold strip. rewrite lstrip_snoc.
  destruct (lstrip s) as [|x t] eqn:E.
  - simpl. rewrite Hc. reflexivity.
  - rewrite rstrip_snoc, Hc. reflexivity.
Qed.

(** The pieces [split_lines] computes are the lines of the text. *)
Lemma split_lines_spec (s cur line : str) :
  In line (split_lines cur s) <->
  (exists a post,
     line = cur ++ a /\ s = a ++ post /\
     Forall (fun c => is_newline c = false) a /\
     (post = [] \/ exists c post', post = c :: post' /\ is_newline c = true)) \/
  (exists pre c post,
     s = pre ++ c :: line ++ post /\ is_newline c = true /\
     Forall (fun c => is_newline c = false) line /\
     (post = [] \/ exists c post', post = c :: post' /\ is_newline c = true)).
Proof.
  revert cur. induction s as [|c t IH]; intros cur.
  - simpl. split.
    + intros [<-|[]]. left. exists [], []. rewrite app_nil_r. auto.
    + intros [(a & post & -> & Hs & _)|(pre & c & post & Hs & _)].
      * symmetry in Hs. apply app_eq_nil in Hs as [-> _].
        rewrite app_nil_r. left. reflexivity.
      * destruct pre; discriminate Hs.
  - simpl. destruct (is_newline c) eqn:Ec.
    + simpl. rewrite IH. split.
      * intros [<-|[(a & post & -> & -> & Ha & Hp)|(pre & d & post & -> & Hd & Hl & Hp)]].
        -- left. exists [], (c :: t). rewrite app_nil_r.
           repeat split; [constructor|]. right. eauto.
        -- right. exists [], c, post. auto.
        -- right. exists (c :: pre), d, post. auto.
      * intros [(a & post & -> & Hs & Ha & Hp)|(pre & d & post & Hs & Hd & Hl & Hp)].
        -- destruct a as [|x a]; [left; rewrite app_nil_r; reflexivity|].
           injection Hs as <- _. inversion Ha; congruence.
        -- destruct pre as [|x pre]; injection Hs as <- ->.
           ++ right. left. exists line, post. auto.
           ++ right. right. exists pre, d, post. auto.
    + rewrite IH. split.
      * intros [(a & post & -> & -> & Ha & Hp)|(pre & d & post & -> & Hd & Hl & Hp)].
        -- left. exists (c :: a), post. rewrite <- app_assoc.
           repeat split; [constructor; assumption | assumption].
        -- right. exists (c :: pre), d, post. auto.
      * intros [(a & post & -> & Hs & Ha & Hp)|(pre & d & post & Hs & Hd & Hl & Hp)].
        -- destruct a as [|x a].
           ++ simpl in Hs. subst post.
              destruct Hp as [Hp|(x & post' & [= <- _] & Hx)]; congruence.
           ++ injection Hs as <- ->. left. exists a, post. rewrite <- app_assoc.
              inversion Ha; auto.
        -- destruct pre as [|x pre]; injection Hs as <- ->; [congruence|].
           right. exists pre, d, post. auto.
Qed.

Lemma split_lines_line_of (content line : str) :
  In line (split_lines [] content) <-> line_of content line.
Proof.
  rewrite split_lines_spec. unfold line_of. split.
  - intros [(a & post & -> & -> & Ha & Hp)|(pre & c & post & -> & Hc & Hl & Hp)].
    + exists [], post. auto.
    + exists (pre ++ [c]), post. rewrite <- app_assoc.
      repeat split; [|assumption..]. right. eauto.
  - intros (pre & post & -> & [->|(pre' & c & -> & Hc)] & Hp & Hl).
    + left. exists line, post. auto.
    + right. exists pre', c, post. rewrite <- app_assoc. auto.
Qed.

Lemma universal_newlines_cons (c : char) (t : str) :
  Container.universal_newlines (c :: t) =
  if c =? 13 then
    match t with
    | d :: t' => if d =? 10 then 10 :: Container.universal_newlines t'
                 else 10 :: Container.universal_newlines t
    | [] => [10]
    end
  else c :: Container.universal_newlines t.
Proof. reflexivity. Qed.

Lemma lines_from_cons (cur : str) (c : char) (t : str) :
  Container.lines_from cur (c :: t) =
  if c =? 10 then (cur ++ [c]) :: Container.lines_from [] t
  else Container.lines_from (cur ++ [c]) t.
Proof. reflexivity. Qed.

Lemma split_lines_cons (cur : str) (c : char) (t : str) :
  split_lines cur (c :: t) =
  if is_newline c then cur :: split_lines [] t else split_lines (cur ++ [c]) t.
Proof. reflexivity. Qed.

Section PublicVerdicts.
Context {U : CaseMap}.

Lemma normalize_snoc_newline (l : str) : normalize (l ++ [10]) = normalize l.
Proof. unfold normalize. rewrite (strip_snoc_space l 10 eq_refl). reflexivity. Qed.

Lemma nonblank_keys_cons (l : str) (ls : list (list N)) :
  nonblank_keys (l :: ls) =
  match normalize l with
  | [] => nonblank_keys ls
  | k => k :: nonblank_keys ls
  end.
Proof. unfold nonblank_keys. simpl. destruct (normalize l); reflexivity. Qed.

Lemma in_nonblank_keys (k : str) (ls : list (list N)) :
  In k (nonblank_keys ls) <-> k <> [] /\ exists l, In l ls /\ normalize l = k.
Proof.
  unfold nonblank_keys. rewrite filter_In, in_map_iff. split.
  - intros [(l & <- & Hl) Hk]. split; [|eauto].
    destruct (normalize l); [discriminate | discriminate].
  - intros [Hk (l & Hl & <-)]. split; [eauto|].
    destruct (normalize l); [congruence | reflexivity].
Qed.

(** The lines read from the file, as the loop of [load_authorized_vehicles]
    gets them, contribute the keys that the lines of the text do. *)
Lemma readlines_keys_bounded (n : nat) (s cur : str) :
  (length s <= n)%nat ->
  nonblank_keys (Container.lines_from cur (Container.universal_newlines s)) =
  nonblank_keys (split_lines cur s).
Proof.
  assert (forall cur' rest,
            nonblank_keys (Container.lines_from cur' (10 :: rest)) =
            nonblank_keys (cur' :: Container.lines_from [] rest)) as Hnl.
  { intros cur' rest. rewrite lines_from_cons. simpl.
    rewrite !nonblank_keys_cons, normalize_snoc_newline. reflexivity. }
  assert (forall ls, nonblank_keys ([] :: ls) = nonblank_keys ls) as Hnil.
  { intros ls. rewrite nonblank_keys_cons. reflexivity. }
  revert s cur. induction n as [|n IH]; intros [|c t] cur Hlen; simpl in Hlen; try lia.
  - simpl. destruct cur; reflexivity.
  - simpl. destruct cur; reflexivity.
  - rewrite universal_newlines_cons, split_lines_cons. unfold is_newline.
    destruct (N.eqb_spec c 13) as [->|H13].
    + change (13 =? 10) with false. cbn [orb].
      destruct t as [|d t'].
      * rewrite Hnl. simpl. rewrite !nonblank_keys_cons. reflexivity.
      * rewrite (split_lines_cons [] d t'). unfold is_newline.
        destruct (N.eqb_spec d 10) as [->|H10].
        -- cbn [orb]. rewrite Hnl, !(nonblank_keys_cons cur), Hnil.
           simpl in Hlen. rewrite (IH t' []) by lia. reflexivity.
        -- rewrite Hnl, !nonblank_keys_cons.
           rewrite (IH (d :: t') []) by lia.
           rewrite (split_lines_cons [] d t'). unfold is_newline.
           apply N.eqb_neq in H10. rewrite H10. reflexivity.
    + destruct (N.eqb_spec c 10) as [->|H10].
      * cbn [orb]. rewrite Hnl, !nonblank_keys_cons.
        rewrite (IH t []) by lia. reflexivity.
      * cbn [orb]. rewrite lines_from_cons. apply N.eqb_neq in H10. rewrite H10.
        apply IH. lia.
Qed.

Lemma readlines_keys (content : str) :
  nonblank_keys (Container.readlines content) = nonblank_keys (split_lines [] content).
Proof. apply (readlines_keys_bounded (length content)). lia. Qed.

(** The verdict on the loaded list in terms of the lines the loader read. *)
Lemma listed_lines_verdict (content p : str) :
  is_authorized
    (Container.verify_vehicle (Container.load_authorized_vehicles (Some content)) p)
  = true <->
  normalize p <> [] /\
  exists line, In line (Container.readlines content) /\ normalize line = normalize p.
Proof.
  unfold Container.load_authorized_vehicles, Container.verify_vehicle.
  destruct (foldl Container.add_line ∅ (Container.readlines content) !! normalize p)
    as [e|] eqn:E; simpl.
  - destruct (load_fold_only _ _ _ _ E) as [H|(-> & Hk & line & Hin & Hl)].
    { rewrite lookup_empty in H. discriminate. }
    split; [|reflexivity]. intros _. split; [exact Hk|]. exists line. auto.
  - split; [discriminate|]. intros (Hk & line & Hin & Hl).
    rewrite <- Hl in E, Hk. rewrite (load_fold_listed _ _ _ Hin Hk) in E. discriminate.
Qed.

(** C8: in the public variant, with [AUTHORIZED_VEHICLES] loaded from the
    text of the list file, [verify_vehicle] answers authorized exactly for
    the plates whose normalized form is not empty and is the normalized form
    of a line of the text (a piece between line ends), then with owner
    ["N/A"]; every other plate is not authorized, and so is every plate when
    the file does not exist. *)
Theorem verify_listed_only (content p : str) :
  (is_authorized
     (Container.verify_vehicle (Container.load_authorized_vehicles (Some content)) p)
   = true <->
   normalize p <> [] /\
   exists line, line_of content line /\ normalize line = normalize p) /\
  (is_authorized
     (Container.verify_vehicle (Container.load_authorized_vehicles (Some content)) p)
   = true ->
   owner (details
     (Container.verify_vehicle (Container.load_authorized_vehicles (Some content)) p))
   = lit "N/A") /\
  is_authorized
    (Container.verify_vehicle (Container.load_authorized_vehicles None) p) = false.
Proof.
  split; [|split].
  - rewrite listed_lines_verdict, <- in_nonblank_keys, readlines_keys, in_nonblank_keys.
    split; intros [Hk (line & Hl & Hn)]; (split; [exact Hk|]); exists line;
      (split; [apply split_lines_line_of, Hl | exact Hn]).
  - unfold Container.verify_vehicle.
    destruct (Container.load_authorized_vehicles (Some content) !! normalize p)
      as [e|] eqn:E; simpl; [|discriminate].
    intros _. simpl in E.
    destruct (load_fold_only _ _ _ _ E) as [H|(-> & _)]; [|reflexivity].
    rewrite lookup_empty in H. discriminate.
  - reflexivity.
Qed.

End PublicVerdicts.

(** A list with mixed spellings, a blank line and Windows line ends. *)
Example verify_listed_example :
  let av := Container.load_authorized_vehicles (U := ascii_case_map)
              (Some (lit "mh12 ab1234" ++ [13; 10; 10] ++ lit "DL8CAF4921" ++ [10])) in
  dom av = {[ lit "MH12AB1234"; lit "DL8CAF4921" ]} /\
  is_authorized (Container.verify_vehicle (U := ascii_case_map) av (lit " MH12 AB1234 ")) = true /\
  is_authorized (Container.verify_vehicle (U := ascii_case_map) av (lit "KA03MN7788")) = false /\
  is_authorized (Container.verify_vehicle (U := ascii_case_map) av []) = false.
Proof. vm_compute. repeat split; reflexivity. Qed.

(** ** Text order *)

Lemma str_compare_antisym (a b : str) :
  str_compare b a = CompOpp (str_compare a b).
Proof.
  revert b. induction a as [|x a IH]; intros [|y b]; simpl; try reflexivity.
  rewrite (N.compare_antisym x y). destruct (x ?= y); simpl; auto.
Qed.

Lemma str_leb_total (a b : str) : str_leb a b = false -> str_leb b a = true.
Proof.
  unfold str_leb. rewrite (str_compare_antisym a b).
  destruct (str_compare a b); simpl; congruence.
Qed.

(** Strings of one length in front decide the comparison unless they agree. *)
Lemma str_compare_app (x y u v : str) :
  length x = length y ->
  str_compare (x ++ u) (y ++ v) =
  match str_compare x y with
  | Eq => str_compare u v
  | o => o
  end.
Proof.
  revert y. induction x as [|c x IH]; intros [|d y] Hlen; simpl in *; try discriminate.
  - reflexivity.
  - destruct (c ?= d); try reflexivity. apply IH. congruence.
Qed.

(** ** [ORDER BY ... DESC] *)

Section OrderByFacts.
Context {A : Type} (key : A -> str).

Lemma insert_desc_perm (x : A) (l : list A) :
  Permutation (insert_desc key x l) (x :: l).
Proof.
  induction l as [|y t IH]; simpl; [reflexivity|].
  destruct (str_leb (key y) (key x)); [reflexivity|].
  rewrite IH. apply perm_swap.
Qed.

Lemma order_by_desc_perm (l : list A) : Permutation (order_by_desc key l) l.
Proof.
  induction l as [|x t IH]; simpl; [reflexivity|].
  rewrite insert_desc_perm. constructor. exact IH.
Qed.

Lemma insert_desc_sorted (x : A) (l : list A) :
  Sorted (key_ge key) l -> Sorted (key_ge key) (insert_desc key x l).
Proof.
  induction 1 as [|y t Ht IH Hd]; simpl.
  - repeat constructor.
  - destruct (str_leb (key y) (key x)) eqn:E.
    + constructor; [constructor; assumption | constructor; exact E].
    + constructor; [exact IH|].
      destruct t as [|z t]; simpl.
      * constructor. apply str_leb_total, E.
      * destruct (str_leb (key z) (key x)).
        -- constructor. apply str_leb_total, E.
        -- constructor. inversion Hd; assumption.
Qed.

Lemma order_by_desc_sorted (l : list A) : Sorted (key_ge key) (order_by_desc key l).
Proof.
  induction l as [|x t IH]; simpl; [constructor|].
  apply insert_desc_sorted, IH.
Qed.

End OrderByFacts.

(** Sorting commutes with a projection that keeps the key. *)
Lemma order_by_desc_map {A B : Type} (f : A -> B) (key : B -> str) (l : list A) :
  order_by_desc key (List.map f l) = List.map f (order_by_desc (fun a => key (f a)) l).
Proof.
  induction l as [|x t IH]; simpl; [reflexivity|]. rewrite IH.
  generalize (order_by_desc (fun a => key (f a)) t). intros s.
  induction s as [|y s IHs]; simpl; [reflexivity|].
  destruct (str_leb (key (f y)) (key (f x))); simpl; congruence.
Qed.

Lemma Sorted_weaken {A : Type} (R R' : A -> A -> Prop) (P : A -> Prop) (l : list A) :
  (forall a b, P a -> P b -> R a b -> R' a b) ->
  Forall P l -> Sorted R l -> Sorted R' l.
Proof.
  intros HR HP HS. induction HS as [|x t Ht IH Hd]; [constructor|].
  inversion HP as [|? ? Px Pt]; subst.
  constructor; [apply IH, Pt|].
  destruct Hd as [|y t Hxy]; constructor.
  inversion Pt; subst. apply HR; assumption.
Qed.

(** ** Timestamps: the text order of [isoformat] is the order in time *)

Lemma zfill_length (w : nat) (n : N) : length (zfill w n) = w.
Proof.
  revert n. induction w as [|w IH]; intros n; simpl; [reflexivity|].
  rewrite length_app, IH. simpl. lia.
Qed.

Lemma N_add_compare_l (p n m : N) : (p + n ?= p + m) = (n ?= m).
Proof.
  destruct (N.compare_spec n m) as [->|H|H].
  - apply N.compare_refl.
  - apply N.compare_lt_iff. lia.
  - apply N.compare_gt_iff. lia.
Qed.

Lemma compare_digits (q1 r1 q2 r2 : N) :
  r1 < 10 -> r2 < 10 ->
  (10 * q1 + r1 ?= 10 * q2 + r2) =
  match q1 ?= q2 with
  | Eq => r1 ?= r2
  | o => o
  end.
Proof.
  intros H1 H2.
  destruct (N.compare_spec q1 q2) as [->|Hq|Hq].
  - apply N_add_compare_l.
  - apply N.compare_lt_iff. lia.
  - apply N.compare_gt_iff. lia.
Qed.

(** Zero-padded numbers of one width compare as the numbers do. *)
Lemma str_compare_zfill (w : nat) (n m : N) :
  n < 10 ^ N.of_nat w -> m < 10 ^ N.of_nat w ->
  str_compare (zfill w n) (zfill w m) = (n ?= m).
Proof.
  revert n m. induction w as [|w IH]; intros n m Hn Hm.
  - simpl in *. assert (n = 0) as -> by lia. assert (m = 0) as -> by lia. reflexivity.
  - rewrite Nat2N.inj_succ, N.pow_succ_r' in Hn, Hm.
    simpl. rewrite str_compare_app by (rewrite !zfill_length; reflexivity).
    rewrite IH by (apply N.Div0.div_lt_upper_bound; assumption).
    pose proof (N.mod_lt n 10 ltac:(discriminate)) as Hrn.
    pose proof (N.mod_lt m 10 ltac:(discriminate)) as Hrm.
    rewrite (N.div_mod n 10) at 3 by discriminate.
    rewrite (N.div_mod m 10) at 3 by discriminate.
    rewrite compare_digits by assumption.
    destruct (n / 10 ?= m / 10); try reflexivity.
    simpl. rewrite N_add_compare_l. destruct (n mod 10 ?= m mod 10); reflexivity.
Qed.

Lemma str_compare_field (w : nat) (n m : N) (u v : str) :
  n < 10 ^ N.of_nat w -> m < 10 ^ N.of_nat w ->
  str_compare (zfill w n ++ u) (zfill w m ++ v) =
  match n ?= m with
  | Eq => str_compare u v
  | o => o
  end.
Proof.
  intros Hn Hm. rewrite str_compare_app by (rewrite !zfill_length; reflexivity).
  rewrite str_compare_zfill by assumption. reflexivity.
Qed.

(** The fraction of a second, present only when it is not zero. *)
Lemma str_compare_fraction (a b : N) :
  a < 10 ^ 6 -> b < 10 ^ 6 ->
  str_compare (if a =? 0 then [] else lit "." ++ zfill 6 a)
              (if b =? 0 then [] else lit "." ++ zfill 6 b) = (a ?= b).
Proof.
  intros Ha Hb.
  destruct (N.eqb_spec a 0) as [->|Ha0], (N.eqb_spec b 0) as [->|Hb0].
  - reflexivity.
  - symmetry. apply N.compare_lt_iff. lia.
  - symmetry. apply N.compare_gt_iff. lia.
  - change (lit ".") with [46]. cbn [app str_compare]. rewrite N.compare_refl.
    apply (str_compare_zfill 6); assumption.
Qed.

Lemma isoformat_compare (a b : datetime) :
  valid_datetime a -> valid_datetime b ->
  str_compare (isoformat a) (isoformat b) = datetime_compare a b.
Proof.
  intros (Hy & Hmo & Hd & Hh & Hmi & Hs & Hu) (Hy' & Hmo' & Hd' & Hh' & Hmi' & Hs' & Hu').
  unfold isoformat, datetime_compare.
  change (lit "-") with [45]. change (lit "T") with [84]. change (lit ":") with [58].
  rewrite (str_compare_field 4) by (simpl; lia).
  destruct (year a ?= year b); try reflexivity.
  cbn [app str_compare]. rewrite N.compare_refl.
  rewrite (str_compare_field 2) by (simpl; lia).
  destruct (month a ?= month b); try reflexivity.
  cbn [app str_compare]. rewrite N.compare_refl.
  rewrite (str_compare_field 2) by (simpl; lia).
  destruct (day a ?= day b); try reflexivity.
  cbn [app str_compare]. rewrite N.compare_refl.
  rewrite (str_compare_field 2) by (simpl; lia).
  destruct (hour a ?= hour b); try reflexivity.
  cbn [app str_compare]. rewrite N.compare_refl.
  rewrite (str_compare_field 2) by (simpl; lia).
  destruct (minute a ?= minute b); try reflexivity.
  cbn [app str_compare]. rewrite N.compare_refl.
  rewrite (str_compare_field 2) by (simpl; lia).
  destruct (second a ?= second b); try reflexivity.
  apply str_compare_fraction; simpl; lia.
Qed.

Lemma isoformat_leb (a b : datetime) :
  valid_datetime a -> valid_datetime b ->
  str_leb (isoformat a) (isoformat b) = true -> datetime_le a b.
Proof.
  intros Ha Hb. unfold str_leb, datetime_le. rewrite (isoformat_compare a b Ha Hb).
  destruct (datetime_compare a b); congruence.
Qed.

(** ** The upload history is complete and ordered *)

Section HistoryFacts.
Variable secure_filename : str -> str.

Lemma run_uploads_cons (st : storage) (c : upload_call) (t : list upload_call) :
  run_uploads secure_filename st (c :: t) =
  run_uploads secure_filename
    match save_image secure_filename st (call_file c) (call_plate c)
            (call_verdict c) (call_now c) with
    | Some (_, st') => st'
    | None => st
    end t.
Proof. reflexivity. Qed.

Lemma run_uploads_columns (calls : list upload_call) (st : storage) :
  Forall (fun c => secure_filename (file_filename (call_file c)) <> []) calls ->
  List.map columns (img_rows (images (run_uploads secure_filename st calls))) =
  List.map columns (img_rows (images st)) ++
  List.map (record_of secure_filename) calls.
Proof.
  intros Hsafe. revert st. induction Hsafe as [|c t Hc _ IH]; intros st.
  - simpl. symmetry. apply app_nil_r.
  - rewrite run_uploads_cons, (save_image_Some _ _ _ _ _ _ Hc), IH.
    rewrite saved_rows, map_app, <- app_assoc. reflexivity.
Qed.

Lemma get_images_run (calls : list upload_call) (folder : gmap (list N) (list N)) :
  Forall (fun c => secure_filename (file_filename (call_file c)) <> []) calls ->
  get_images
    (run_uploads secure_filename {| images := init_db None; files := folder |} calls) =
  List.map (record_of secure_filename) (order_by_desc (fun c => isoformat (call_now c)) calls).
Proof.
  intros Hsafe. unfold get_images.
  rewrite <- (order_by_desc_map columns (fun r => r.1.1.2)).
  rewrite (run_uploads_columns _ _ Hsafe). simpl.
  apply (order_by_desc_map (record_of secure_filename) (fun r => r.1.1.2)).
Qed.

(** A call whose file name the sanitizer empties raises in [file.save] and
    leaves the storage as it was. *)
Lemma run_uploads_raise (st : storage) (c : upload_call) :
  secure_filename (file_filename (call_file c)) = [] ->
  run_uploads secure_filename st [c] = st.
Proof.
  intros H. rewrite run_uploads_cons, (save_image_None _ _ _ _ _ _ H). reflexivity.
Qed.

(** C5: starting from an empty history, after any sequence of calls of
    [save_image] whose file writes succeed (no file name is emptied by the
    sanitizer), whatever their verdicts, every call has appended its row and
    [get_images] returns as many records as there were calls: the records of
    the calls, each call once, arranged so that no record is followed by one
    with a later upload time. *)
Theorem history_complete_and_ordered (calls : list upload_call)
    (folder : gmap (list N) (list N)) :
  Forall (fun c => valid_datetime (call_now c)) calls ->
  Forall (fun c => secure_filename (file_filename (call_file c)) <> []) calls ->
  let st :=
    run_uploads secure_filename {| images := init_db None; files := folder |} calls in
  List.map columns (img_rows (images st)) = List.map (record_of secure_filename) calls /\
  length (get_images st) = length calls /\
  exists shown : list upload_call,
    Permutation shown calls /\
    get_images st = List.map (record_of secure_filename) shown /\
    Sorted (fun a b => datetime_le (call_now b) (call_now a)) shown.
Proof.
  intros Hvalid Hsafe st. subst st. split; [|split].
  - rewrite (run_uploads_columns _ _ Hsafe). reflexivity.
  - rewrite (get_images_run _ _ Hsafe), length_map.
    apply Permutation_length, order_by_desc_perm.
  - exists (order_by_desc (fun c => isoformat (call_now c)) calls).
    split; [apply order_by_desc_perm|]. split; [apply get_images_run, Hsafe|].
    eapply (Sorted_weaken _ _ (fun c => valid_datetime (call_now c))).
    + intros a b Ha Hb Hab. apply isoformat_leb; [exact Hb | exact Ha | exact Hab].
    + eapply Permutation_Forall; [|exact Hvalid].
      symmetry. apply order_by_desc_perm.
    + apply order_by_desc_sorted.
Qed.

End HistoryFacts.

Example get_images_demo :
  get_images (run_uploads (fun name => name)
                {| images := init_db None; files := ∅ |} demo_calls) =
  [ (lit "b.jpg", lit "2024-03-01T09:30:01.500000", lit "ka03 mn7788", 0%Z);
    (lit "c.jpg", lit "2024-03-01T09:30:01", lit "UNKNOWN", 0%Z);
    (lit "a.jpg", lit "2024-03-01T09:30:00.250000", lit "MH12AB1234", 1%Z) ].
Proof. vm_compute. reflexivity. Qed.

Lemma history_complete_and_ordered_witness :
  Forall (fun c => valid_datetime (call_now c)) demo_calls /\
  Forall (fun c => file_filename (call_file c) <> []) demo_calls /\
  length (get_images (run_uploads (fun name => name)
                        {| images := init_db None; files := ∅ |} demo_calls)) =
  length demo_calls.
Proof.
  assert (Forall (fun c => valid_datetime (call_now c)) demo_calls) as H.
  { repeat constructor; simpl; lia. }
  assert (Forall (fun c => file_filename (call_file c) <> []) demo_calls) as H'.
  { repeat constructor; discriminate. }
  split; [exact H|]. split; [exact H'|].
  exact (proj1 (proj2 (history_complete_and_ordered (fun name => name) demo_calls ∅
                         H H'))).
Defined.

(** * Further properties of the code *)

(** ** Normalization absorbs its own steps *)

Lemma strip_strip (s : str) : strip (strip s) = strip s.
Proof. apply strip_clean; [apply strip_starts_clean | apply strip_ends_clean]. Qed.

Lemma lstrip_replace_space (s : str) :
  lstrip (replace_space s) = replace_space (lstrip s).
Proof.
  induction s as [|c t IH]; simpl; [reflexivity|].
  destruct (N.eqb_spec c 32) as [->|Hc]; simpl; [exact IH|].
  destruct (isspace c); [exact IH|].
  simpl. apply N.eqb_neq in Hc. rewrite Hc. reflexivity.
Qed.

Lemma strip_replace_space (s : str) :
  strip (replace_space s) = replace_space (strip s).
Proof.
  unfold strip, rstrip. rewrite lstrip_replace_space.
  unfold replace_space at 1. rewrite <- filter_rev.
  fold (replace_space (rev (lstrip s))). rewrite lstrip_replace_space.
  unfold replace_space. symmetry. apply filter_rev.
Qed.

Section Absorb.
Context {U : CaseMap}.

Lemma upper_app (a b : str) : upper (a ++ b) = upper a ++ upper b.
Proof. apply flat_map_app. Qed.

Lemma upper_snoc (s : str) (c : char) : upper (s ++ [c]) = upper s ++ upper_char c.
Proof. rewrite upper_app. unfold upper at 2. simpl. rewrite app_nil_r. reflexivity. Qed.

Lemma lstrip_upper (s : str) : lstrip (upper s) = upper (lstrip s).
Proof.
  induction s as [|c t IH]; [reflexivity|].
  change (upper (c :: t)) with (upper_char c ++ upper t). simpl lstrip at 2.
  destruct (isspace c) eqn:E.
  - rewrite (upper_char_space c E). simpl. rewrite E. exact IH.
  - destruct (upper_char_nonspace c E) as [Hne Hall].
    change (upper (c :: t)) with (upper_char c ++ upper t).
    destruct (upper_char c) as [|d ds]; [congruence|].
    simpl. inversion Hall as [|? ? Hd _]; subst. rewrite Hd. reflexivity.
Qed.

Lemma rstrip_upper (s : str) : rstrip (upper s) = upper (rstrip s).
Proof.
  induction s as [|c s IH] using rev_ind; [reflexivity|].
  rewrite upper_snoc, rstrip_snoc.
  destruct (isspace c) eqn:E.
  - rewrite (upper_char_space c E), rstrip_snoc, E. exact IH.
  - rewrite upper_snoc.
    destruct (upper_char_nonspace c E) as [Hne Hall].
    destruct (upper_char c) as [|d ds] using rev_ind; [congruence|].
    apply Forall_app in Hall as [_ Hd]. inversion Hd as [|? ? Hd' _]; subst.
    rewrite app_assoc, rstrip_snoc, Hd'. reflexivity.
Qed.

Lemma strip_upper (s : str) : strip (upper s) = upper (strip s).
Proof. unfold strip. rewrite lstrip_upper. apply rstrip_upper. Qed.

Lemma replace_space_upper (s : str) :
  replace_space (upper (replace_space s)) = replace_space (upper s).
Proof.
  induction s as [|c t IH]; [reflexivity|].
  change (upper (c :: t)) with (upper_char c ++ upper t).
  unfold replace_space at 3. rewrite List.filter_app.
  fold (replace_space (upper_char c)). fold (replace_space (upper t)).
  rewrite <- IH. simpl.
  destruct (N.eqb_spec c 32) as [->|Hc]; simpl.
  - rewrite (upper_char_space 32 eq_refl). reflexivity.
  - change (upper (c :: replace_space t))
      with (upper_char c ++ upper (replace_space t)).
    unfold replace_space at 1. rewrite List.filter_app. reflexivity.
Qed.

Lemma normalize_strip (p : str) : normalize (strip p) = normalize p.
Proof. unfold normalize. rewrite strip_strip. reflexivity. Qed.

Lemma normalize_upper (p : str) : normalize (upper p) = normalize p.
Proof. unfold normalize. rewrite strip_upper, upper_upper. reflexivity. Qed.

Lemma normalize_replace_space (p : str) : normalize (replace_space p) = normalize p.
Proof. unfold normalize. rewrite strip_replace_space. apply replace_space_upper. Qed.

Lemma normalize_normalize (p : str) : normalize (normalize p) = normalize p.
Proof.
  unfold normalize at 2.
  rewrite normalize_replace_space, normalize_upper. apply normalize_strip.
Qed.

(** X1: a plate that was already stripped, uppercased or freed of its spaces
    normalizes to the same key as the plate itself. *)
Theorem normalize_absorbs (p : str) :
  normalize (strip p) = normalize p /\
  normalize (upper p) = normalize p /\
  normalize (replace_space p) = normalize p.
Proof.
  split; [apply normalize_strip|]. split; [apply normalize_upper|].
  apply normalize_replace_space.
Qed.

(** X2: in both variants the verdict depends on the plate through its
    normalized form only, and verifying the plate of a verdict again gives
    the same verdict. *)
Theorem verify_of_normalized (p q : str) :
  (forall vs : gmap (list N) (list N * Z),
     (normalize p = normalize q ->
      Original.verify_vehicle vs p = Original.verify_vehicle vs q) /\
     Original.verify_vehicle vs (plate (Original.verify_vehicle vs p)) =
     Original.verify_vehicle vs p) /\
  (forall av : gmap (list N) details_dict,
     (normalize p = normalize q ->
      Container.verify_vehicle av p = Container.verify_vehicle av q) /\
     Container.verify_vehicle av (plate (Container.verify_vehicle av p)) =
     Container.verify_vehicle av p).
Proof.
  split.
  - intros vs. split.
    + intros H. unfold Original.verify_vehicle. rewrite H. reflexivity.
    + assert (plate (Original.verify_vehicle vs p) = normalize p) as ->.
      { unfold Original.verify_vehicle.
        destruct (vs !! normalize p) as [[o a]|]; reflexivity. }
      unfold Original.verify_vehicle. rewrite normalize_normalize. reflexivity.
  - intros av. split.
    + intros H. unfold Container.verify_vehicle. rewrite H. reflexivity.
    + assert (plate (Container.verify_vehicle av p) = normalize p) as ->.
      { unfold Container.verify_vehicle.
        destruct (av !! normalize p); reflexivity. }
      unfold Container.verify_vehicle. rewrite normalize_normalize. reflexivity.
Qed.

(** X3: the plate of every verdict is in canonical form: stripping or
    uppercasing it changes nothing and it holds no space. *)
Theorem verdict_plate_canonical (p : str) :
  (forall vs : gmap (list N) (list N * Z),
     let c := plate (Original.verify_vehicle vs p) in
     c = normalize p /\ strip c = c /\ upper c = c /\ ~ In 32 c) /\
  (forall av : gmap (list N) details_dict,
     let c := plate (Container.verify_vehicle av p) in
     c = normalize p /\ strip c = c /\ upper c = c /\ ~ In 32 c).
Proof.
  assert (strip (normalize p) = normalize p /\ upper (normalize p) = normalize p /\
          ~ In 32 (normalize p)) as Hc.
  { split; [apply normalize_stripped|].
    split; [apply upper_fixed, normalize_fixed_chars|].
    unfold normalize, replace_space. intros [_ H]%filter_In. discriminate H. }
  split.
  - intros vs c.
    assert (c = normalize p) as ->; [|split; [reflexivity | exact Hc]].
    subst c. unfold Original.verify_vehicle.
    destruct (vs !! normalize p) as [[o a]|]; reflexivity.
  - intros av c.
    assert (c = normalize p) as ->; [|split; [reflexivity | exact Hc]].
    subst c. unfold Container.verify_vehicle.
    destruct (av !! normalize p); reflexivity.
Qed.

End Absorb.

(** ** What a verdict says *)

Section VerdictFacts.
Context {U : CaseMap}.

(** X4: in the gated variant a verdict is authorized exactly when the
    normalized plate has a row whose flag is not zero; the alert type is
    ["success"] exactly for authorized verdicts and ["error"] otherwise, never
    ["warning"]. *)
Theorem gated_verdict_consistent (vs : gmap (list N) (list N * Z)) (p : str) :
  (is_authorized (Original.verify_vehicle vs p) = true <->
   exists (o : list N) (a : Z), vs !! normalize p = Some (o, a) /\ a <> 0%Z) /\
  (alert_type (Original.verify_vehicle vs p) = lit "success" <->
   is_authorized (Original.verify_vehicle vs p) = true) /\
  (alert_type (Original.verify_vehicle vs p) = lit "error" <->
   is_authorized (Original.verify_vehicle vs p) = false) /\
  alert_type (Original.verify_vehicle vs p) <> lit "warning".
Proof.
  assert (lit "error" <> lit "success") as Hes by (vm_compute; discriminate).
  assert (lit "success" <> lit "warning") as Hsw by (vm_compute; discriminate).
  assert (lit "error" <> lit "warning") as Hew by (vm_compute; discriminate).
  unfold Original.verify_vehicle.
  destruct (vs !! normalize p) as [[o a]|] eqn:E; simpl.
  - unfold bool_of_int. destruct (Z.eqb_spec a 0) as [->|Ha]; simpl.
    + repeat split; try congruence.
      intros (o' & a' & [= _ <-] & Hne). congruence.
    + repeat split; try congruence. intros _. exists o, a. auto.
  - repeat split; try congruence. intros (o & a & H & _). discriminate.
Qed.

(** X5: every key of the list the public variant has loaded is a non-empty
    normalized plate, and every entry is the owner ["N/A"] with the status
    ["Authorized"], whatever the file held. *)
Theorem loaded_list_invariant (file : option (list N)) (k : str) (e : details_dict) :
  Container.load_authorized_vehicles file !! k = Some e ->
  k <> [] /\ normalize k = k /\
  e = {| owner := lit "N/A"; status := Some (lit "Authorized") |}.
Proof.
  destruct file as [content|]; simpl; [|rewrite lookup_empty; discriminate].
  intros H. destruct (load_fold_only _ _ _ _ H) as [H'|(-> & Hk & line & _ & <-)].
  - rewrite lookup_empty in H'. discriminate.
  - split; [exact Hk|]. split; [apply normalize_normalize | reflexivity].
Qed.

Lemma loaded_list_entry (file : option (list N)) (k : str) (e : details_dict) :
  Container.load_authorized_vehicles file !! k = Some e ->
  k <> [] /\ e = Container.listed_entry.
Proof.
  destruct file as [content|]; simpl; [|rewrite lookup_empty; discriminate].
  intros H. destruct (load_fold_only _ _ _ _ H) as [H'|(-> & Hk & _)].
  - rewrite lookup_empty in H'. discriminate.
  - auto.
Qed.

(** X6: in the public variant, on the loaded list, the owner of every verdict
    is ["N/A"], the status ["Authorized"] is present exactly in authorized
    verdicts, and a plate that normalizes to the empty string is never
    authorized. *)
Theorem public_verdict_consistent (file : option (list N)) (p : str) :
  let v := Container.verify_vehicle (Container.load_authorized_vehicles file) p in
  owner (details v) = lit "N/A" /\
  (status (details v) = Some (lit "Authorized") <-> is_authorized v = true) /\
  (alert_type v = lit "success" <-> is_authorized v = true) /\
  (normalize p = [] -> is_authorized v = false).
Proof.
  assert (lit "error" <> lit "success") as Hes by (vm_compute; discriminate).
  unfold Container.verify_vehicle.
  destruct (Container.load_authorized_vehicles file !! normalize p) as [e|] eqn:E;
    simpl.
  - destruct (loaded_list_entry _ _ _ E) as [Hk ->]. simpl.
    repeat split; try congruence.
  - repeat split; try congruence.
Qed.

End VerdictFacts.

Lemma loaded_list_invariant_witness :
  Container.load_authorized_vehicles (U := ascii_case_map)
    (Some (lit " mh12 ab1234 " ++ [10])) !! lit "MH12AB1234"
  = Some Container.listed_entry /\
  lit "MH12AB1234" <> [] /\
  normalize (U := ascii_case_map) (lit "MH12AB1234") = lit "MH12AB1234".
Proof.
  assert (Container.load_authorized_vehicles (U := ascii_case_map)
            (Some (lit " mh12 ab1234 " ++ [10])) !! lit "MH12AB1234"
          = Some Container.listed_entry) as H by (vm_compute; reflexivity).
  split; [exact H|].
  destruct (loaded_list_invariant (U := ascii_case_map) _ _ _ H) as (H1 & H2 & _).
  split; [exact H1 | exact H2].
Defined.

(** ** The routes [/scan] and [/upload] *)

Section Routes.
Context {U : CaseMap}.
Variable secure_filename : str -> str.

(** X7: [/scan] answers a plate that is not blank with status 200 and the
    verdict of [verify_vehicle] on the plate as sent (the strip made by the
    route changes nothing for the verdict), and leaves the state alone. *)
Theorem scan_nonblank_plate (data : gmap string (list N)) :
  strip (default [] (data !! "license_plate"%string)) <> [] ->
  (forall s : Container.state,
     Container.scan_vehicle data s =
     (Jsonify (JVerdict
        (Container.verify_vehicle (Container.AUTHORIZED_VEHICLES s)
           (default [] (data !! "license_plate"%string)))) 200, s)) /\
  (forall (session : gmap string Original.session_value) (s : Original.state),
     is_Some (session !! "user_id"%string) ->
     Original.scan_vehicle data session s =
     (Jsonify (JVerdict
        (Original.verify_vehicle (Original.vehicles s)
           (default [] (data !! "license_plate"%string)))) 200, s)).
Proof.
  intros H. split.
  - intros s. unfold Container.scan_vehicle.
    destruct (strip (default [] (data !! "license_plate"%string))) as [|c r] eqn:E;
      [congruence|].
    rewrite <- E. unfold Container.verify_vehicle. rewrite normalize_strip. reflexivity.
  - intros session s [v Hv].
    unfold Original.scan_vehicle, Original.login_required, Original.scan_vehicle_view.
    rewrite Hv.
    destruct (strip (default [] (data !! "license_plate"%string))) as [|c r] eqn:E;
      [congruence|].
    rewrite <- E. unfold Original.verify_vehicle. rewrite normalize_strip. reflexivity.
Qed.

(** X8: an upload without the file part [image], or whose file has an empty
    name, is answered with status 400 and a message, and nothing is stored:
    the state is the one before. *)
Theorem upload_rejected (req : upload_request) (now : datetime) :
  req_files req !! "image"%string = None \/
  (exists file, req_files req !! "image"%string = Some file /\ file_filename file = []) ->
  (forall s : Container.state,
     exists msg, Container.upload_image secure_filename req now s =
                 (Jsonify (JMessage msg) 400, s)) /\
  (forall (session : gmap string Original.session_value) (s : Original.state),
     is_Some (session !! "user_id"%string) ->
     exists msg, Original.upload_image secure_filename req now session s =
                 (Jsonify (JMessage msg) 400, s)).
Proof.
  intros H. split.
  - intros s. unfold Container.upload_image.
    destruct H as [->|(file & -> & ->)]; eexists; reflexivity.
  - intros session s [v Hv].
    unfold Original.upload_image, Original.login_required, Original.upload_image_view.
    rewrite Hv. destruct H as [->|(file & -> & ->)]; eexists; reflexivity.
Qed.

(** X9: an upload with a named file, whose name the sanitizer does not
    empty, is answered with status 200, the sanitized file name and the
    verdict on the submitted plate; it appends one row that holds the plate
    as submitted (not normalized) and the flag of the verdict, writes the
    file under the upload folder, and leaves the authorization data (list,
    vehicles, users) as it was. *)
Theorem upload_accepted (req : upload_request) (file : file_storage) (now : datetime) :
  req_files req !! "image"%string = Some file ->
  file_filename file <> [] ->
  secure_filename (file_filename file) <> [] ->
  let raw := default (lit "UNKNOWN") (req_form req !! "license_plate"%string) in
  let name := secure_filename (file_filename file) in
  (forall s : Container.state,
     let result := Container.verify_vehicle (Container.AUTHORIZED_VEHICLES s) raw in
     let out := Container.upload_image secure_filename req now s in
     out.1 = Jsonify (JUploaded (lit "Image uploaded") name result) 200 /\
     Container.AUTHORIZED_VEHICLES out.2 = Container.AUTHORIZED_VEHICLES s /\
     img_rows (images (Container.store out.2)) =
       img_rows (images (Container.store s)) ++
         [ {| img_id := img_seq (images (Container.store s)) + 1;
              img_filename := name; img_upload_time := isoformat now;
              img_plate := raw;
              img_is_authorized := int_of_bool (is_authorized result) |} ] /\
     files (Container.store out.2) =
       <[os_path_join UPLOAD_FOLDER name := file_content file]>
         (files (Container.store s))) /\
  (forall (session : gmap string Original.session_value) (s : Original.state),
     is_Some (session !! "user_id"%string) ->
     let result := Original.verify_vehicle (Original.vehicles s) raw in
     let out := Original.upload_image secure_filename req now session s in
     out.1 = Jsonify (JUploaded (lit "Image uploaded") name result) 200 /\
     Original.vehicles out.2 = Original.vehicles s /\
     Original.users out.2 = Original.users s /\
     img_rows (images (Original.store out.2)) =
       img_rows (images (Original.store s)) ++
         [ {| img_id := img_seq (images (Original.store s)) + 1;
              img_filename := name; img_upload_time := isoformat now;
              img_plate := raw;
              img_is_authorized := int_of_bool (is_authorized result) |} ] /\
     files (Original.store out.2) =
       <[os_path_join UPLOAD_FOLDER name := file_content file]>
         (files (Original.store s))).
Proof.
  intros Hfile Hname Hsafe raw name. split.
  - intros s result out. subst out.
    rewrite (container_upload_eq secure_filename req file now s Hfile Hname Hsafe).
    repeat split; reflexivity.
  - intros session s Hs result out. subst out.
    rewrite (original_upload_eq secure_filename req file now session s Hs Hfile
               Hname Hsafe).
    repeat split; reflexivity.
Qed.

(** X10: [/upload] does not check for a blank plate. With a form field
    [license_plate] that is empty or all whitespace, and a file name the
    sanitizer does not empty, the upload is accepted, the verdict is the one
    for the empty plate (not authorized, alert type ["error"]) and the row is
    appended with the blank plate as sent; in the public variant for every
    loaded list, in the gated variant when no row has the empty plate. *)
Theorem upload_blank_plate (req : upload_request) (file : file_storage)
    (now : datetime) (p : str) :
  req_files req !! "image"%string = Some file ->
  file_filename file <> [] ->
  secure_filename (file_filename file) <> [] ->
  req_form req !! "license_plate"%string = Some p ->
  forallb isspace p = true ->
  (forall (list_file : option (list N)) (db : option images_table)
          (folder : gmap (list N) (list N)),
     let s := Container.startup list_file db folder in
     let out := Container.upload_image secure_filename req now s in
     out.1 = Jsonify (JUploaded (lit "Image uploaded")
                        (secure_filename (file_filename file))
                        {| is_authorized := false; plate := [];
                           details := {| owner := lit "N/A"; status := None |};
                           message := lit "ALERT! Vehicle  is UNAUTHORIZED.";
                           alert_type := lit "error" |}) 200 /\
     List.map columns (img_rows (images (Container.store out.2))) =
       List.map columns (img_rows (images (Container.store s))) ++
         [ (secure_filename (file_filename file), isoformat now, p, 0%Z) ]) /\
  (forall (session : gmap string Original.session_value) (s : Original.state),
     is_Some (session !! "user_id"%string) ->
     Original.vehicles s !! ([] : list N) = None ->
     let out := Original.upload_image secure_filename req now session s in
     out.1 = Jsonify (JUploaded (lit "Image uploaded")
                        (secure_filename (file_filename file))
                        {| is_authorized := false; plate := [];
                           details := {| owner := lit "UNKNOWN"; status := None |};
                           message := lit "ALERT! Vehicle UNKNOWN is UNAUTHORIZED/UNKNOWN.";
                           alert_type := lit "error" |}) 200 /\
     List.map columns (img_rows (images (Original.store out.2))) =
       List.map columns (img_rows (images (Original.store s))) ++
         [ (secure_filename (file_filename file), isoformat now, p, 0%Z) ]).
Proof.
  intros Hfile Hname Hsafe Hform Hp. split.
  - intros list_file db folder s out. subst out.
    rewrite (container_upload_eq secure_filename req file now s Hfile Hname Hsafe),
      Hform. simpl default.
    assert (Container.AUTHORIZED_VEHICLES s !! ([] : list N) = None) as Hnone.
    { subst s. simpl.
      destruct (Container.load_authorized_vehicles list_file !! ([] : list N))
        as [e|] eqn:E; [|reflexivity].
      destruct (loaded_list_entry _ _ _ E) as [Hk _]. congruence. }
    rewrite (verify_blank_public _ p Hp Hnone). cbn [fst snd Container.store].
    rewrite saved_rows, map_app. split; reflexivity.
  - intros session s Hs Hnone out. subst out.
    rewrite (original_upload_eq secure_filename req file now session s Hs Hfile
               Hname Hsafe), Hform.
    simpl default. rewrite (verify_blank_gated _ p Hp Hnone). cbn [fst snd Original.store].
    rewrite saved_rows, map_app. split; reflexivity.
Qed.

(** X20: an upload whose file name is not empty but is emptied by the
    sanitizer passes the guard on the raw name and then raises in
    [file.save]: the answer is status 500 and nothing is stored, no row and
    no file, whatever the plate and the verdict. *)
Theorem upload_unusable_name (req : upload_request) (file : file_storage)
    (now : datetime) :
  req_files req !! "image"%string = Some file ->
  file_filename file <> [] ->
  secure_filename (file_filename file) = [] ->
  (forall s : Container.state,
     Container.upload_image secure_filename req now s = (InternalServerError, s)) /\
  (forall (session : gmap string Original.session_value) (s : Original.state),
     is_Some (session !! "user_id"%string) ->
     Original.upload_image secure_filename req now session s =
     (InternalServerError, s)).
Proof.
  intros Hfile Hname Hbad. split.
  - intros s. unfold Container.upload_image. rewrite Hfile.
    destruct (file_filename file) as [|c name] eqn:E; [congruence|].
    rewrite <- E in *. cbv zeta. rewrite (save_image_None _ _ _ _ _ _ Hbad). reflexivity.
  - intros session s [v Hv].
    unfold Original.upload_image, Original.login_required, Original.upload_image_view.
    rewrite Hv, Hfile.
    destruct (file_filename file) as [|c name] eqn:E; [congruence|].
    rewrite <- E in *. cbv zeta. rewrite (save_image_None _ _ _ _ _ _ Hbad). reflexivity.
Qed.

End Routes.

(** ** The history for any content of the table *)

Lemma get_images_columns (st : storage) :
  get_images st =
  List.map columns (order_by_desc img_upload_time (img_rows (images st))).
Proof. reflexivity. Qed.

(** X11: for every content of [images], [get_images] returns the rows of the
    table, each once, in descending text order of [upload_time]. *)
Theorem get_images_sorted (st : storage) :
  Permutation (get_images st) (List.map columns (img_rows (images st))) /\
  Sorted (key_ge (fun r : list N * list N * list N * Z => r.1.1.2)) (get_images st).
Proof.
  rewrite get_images_columns. split.
  - apply Permutation_map, order_by_desc_perm.
  - rewrite <- (order_by_desc_map columns (fun r => r.1.1.2)).
    apply order_by_desc_sorted.
Qed.

Lemma str_compare_refl (a : str) : str_compare a a = Eq.
Proof.
  induction a as [|x a IH]; simpl; [reflexivity|].
  rewrite N.compare_refl. exact IH.
Qed.

Lemma str_leb_gt (a b : str) : str_compare a b = Lt -> str_leb b a = false.
Proof.
  intros H. unfold str_leb. rewrite (str_compare_antisym a b), H. reflexivity.
Qed.

Lemma order_by_desc_snoc_latest {A : Type} (key : A -> str) (l : list A) (x : A) :
  Forall (fun y => str_compare (key y) (key x) = Lt) l ->
  order_by_desc key (l ++ [x]) = x :: order_by_desc key l.
Proof.
  unfold order_by_desc. rewrite foldr_app. simpl.
  induction 1 as [|y t Hy _ IH]; simpl; [reflexivity|].
  rewrite IH. simpl. rewrite (str_leb_gt _ _ Hy). reflexivity.
Qed.

Section HistoryMore.
Variable secure_filename : str -> str.

(** X12: an upload whose file write succeeds and that is stamped later than
    every row of the table is the first record [get_images] returns
    afterwards, followed by the records as they were returned before. *)
Theorem newest_upload_first (st : storage) (file : file_storage) (p : str)
    (a : bool) (now : datetime) :
  secure_filename (file_filename file) <> [] ->
  all_before (isoformat now) (img_rows (images st)) ->
  exists st',
    save_image secure_filename st file p a now =
      Some (secure_filename (file_filename file), st') /\
    get_images st' =
    (secure_filename (file_filename file), isoformat now, p, int_of_bool a)
      :: get_images st.
Proof.
  intros Hsafe H. exists (saved secure_filename st file p a now).
  split; [apply save_image_Some, Hsafe|].
  rewrite !get_images_columns, saved_rows.
  rewrite (order_by_desc_snoc_latest img_upload_time); [reflexivity | exact H].
Qed.

(** X13: two uploads whose sanitized file names agree, and are not empty,
    leave two rows in the history but one file: the second upload replaces
    the bytes of the first. *)
Theorem same_name_overwrites (st : storage) (c1 c2 : upload_call) :
  secure_filename (file_filename (call_file c1)) =
    secure_filename (file_filename (call_file c2)) ->
  secure_filename (file_filename (call_file c2)) <> [] ->
  let st2 := run_uploads secure_filename st [c1; c2] in
  files st2 =
    <[os_path_join UPLOAD_FOLDER (secure_filename (file_filename (call_file c2)))
        := file_content (call_file c2)]> (files st) /\
  List.map columns (img_rows (images st2)) =
    List.map columns (img_rows (images st)) ++
      [record_of secure_filename c1; record_of secure_filename c2].
Proof.
  intros Hname Hsafe st2. subst st2.
  assert (secure_filename (file_filename (call_file c1)) <> []) as Hsafe1
    by (rewrite Hname; exact Hsafe).
  rewrite !run_uploads_cons.
  rewrite (save_image_Some _ _ _ _ _ _ Hsafe1), (save_image_Some _ _ _ _ _ _ Hsafe).
  split.
  - simpl. rewrite Hname. apply insert_insert_eq.
  - simpl run_uploads. rewrite !saved_rows, !map_app, <- app_assoc. reflexivity.
Qed.

End HistoryMore.

(** ** Timestamps *)

Lemma datetime_compare_eq (a b : datetime) : datetime_compare a b = Eq -> a = b.
Proof.
  unfold datetime_compare. destruct a, b; simpl.
  repeat match goal with
  | |- context [?x ?= ?y] => destruct (N.compare_spec x y); try discriminate
  end.
  intros _. congruence.
Qed.

(** X14: on valid datetimes the text order of [isoformat] is the order in
    time, two different datetimes never get the same text, and the text has
    19 characters, or 26 with the fraction. *)
Theorem isoformat_order (a b : datetime) :
  valid_datetime a -> valid_datetime b ->
  str_compare (isoformat a) (isoformat b) = datetime_compare a b /\
  (isoformat a = isoformat b -> a = b) /\
  length (isoformat a) = if microsecond a =? 0 then 19%nat else 26%nat.
Proof.
  intros Ha Hb. split; [apply isoformat_compare; assumption|]. split.
  - intros H. apply datetime_compare_eq.
    rewrite <- (isoformat_compare a b Ha Hb), H. apply str_compare_refl.
  - unfold isoformat.
    destruct (microsecond a =? 0); rewrite !length_app, !zfill_length; reflexivity.
Qed.

(** ** Reading the list file *)

Lemma universal_newlines_no_cr_bounded (n : nat) (s : str) :
  (length s <= n)%nat -> ~ In 13 (Container.universal_newlines s).
Proof.
  revert s. induction n as [|n IH]; intros [|c t] Hlen; simpl in *;
    try (intros []); try lia.
  destruct (N.eqb_spec c 13) as [->|Hc].
  - destruct t as [|d t']; [intros [H|[]]; discriminate H|].
    destruct (d =? 10).
    + intros [H|H]; [discriminate H|]. revert H. apply IH. simpl in Hlen. lia.
    + intros [H|H]; [discriminate H|]. revert H. apply IH. lia.
  - intros [H|H]; [congruence|]. revert H. apply IH. lia.
Qed.

Lemma universal_newlines_no_cr (s : str) : ~ In 13 (Container.universal_newlines s).
Proof. apply (universal_newlines_no_cr_bounded (length s)). lia. Qed.

Lemma lines_from_concat (cur s : str) :
  concat (Container.lines_from cur s) = cur ++ s.
Proof.
  revert cur. induction s as [|c t IH]; intros cur; simpl.
  - destruct cur; simpl; rewrite ?app_nil_r; reflexivity.
  - destruct (c =? 10); simpl; rewrite IH, <- ?app_assoc; reflexivity.
Qed.

Lemma in_removelast {A : Type} (x : A) (l : list A) : In x (removelast l) -> In x l.
Proof.
  induction l as [|y t IH]; simpl; [tauto|].
  destruct t as [|z t']; [intros []|].
  intros [H|H]; [left; exact H | right; apply IH, H].
Qed.

Lemma lines_from_shape (cur s : str) :
  ~ In 10 cur ->
  Forall (fun line => line <> [] /\ ~ In 10 (removelast line))
    (Container.lines_from cur s).
Proof.
  revert cur. induction s as [|c t IH]; intros cur Hcur; simpl.
  - destruct cur as [|x cur']; constructor; [|constructor].
    split; [discriminate|]. intros H. apply Hcur, in_removelast, H.
  - destruct (N.eqb_spec c 10) as [->|Hc].
    + constructor; [|apply IH; intros []].
      split; [destruct cur; discriminate|]. rewrite removelast_last. exact Hcur.
    + apply IH. intros [H|[H|[]]]%in_app_or; [exact (Hcur H) | congruence].
Qed.

(** Reading the list loses nothing and splits at newlines only: the
    lines in order make up the text with [\r\n] and [\r] turned into [\n],
    no line is empty, and a newline occurs in a line as its last character
    only. *)
Lemma readlines_partition (content : str) :
  concat (Container.readlines content) = Container.universal_newlines content /\
  ~ In 13 (concat (Container.readlines content)) /\
  Forall (fun line => line <> [] /\ ~ In 10 (removelast line))
    (Container.readlines content).
Proof.
  unfold Container.readlines. rewrite lines_from_concat. simpl.
  split; [reflexivity|]. split; [apply universal_newlines_no_cr|].
  apply lines_from_shape. intros [].
Qed.

(** ** Seeding the vehicles table *)

(** X15: [init_vehicle_db] seeds an empty table only: a table with a row is
    returned as it is, the result always has a row, and running it a second
    time changes nothing. *)
Theorem init_vehicle_db_idempotent (vs : gmap (list N) (list N * Z)) :
  (vs <> ∅ -> Original.init_vehicle_db vs = vs) /\
  Original.init_vehicle_db vs <> ∅ /\
  Original.init_vehicle_db (Original.init_vehicle_db vs) = Original.init_vehicle_db vs.
Proof.
  assert (vs <> ∅ -> Original.init_vehicle_db vs = vs) as Hkeep.
  { intros Hne. unfold Original.init_vehicle_db.
    destruct (Nat.eqb_spec (size vs) 0) as [H0|_]; [|reflexivity].
    apply map_size_empty_inv in H0. contradiction. }
  assert (Original.init_vehicle_db vs <> ∅) as Hfull.
  { destruct (decide (vs = ∅)) as [->|Hne].
    - intros H. apply (f_equal (fun m => m !! lit "MH12AB1234")) in H.
      vm_compute in H. discriminate H.
    - rewrite (Hkeep Hne). exact Hne. }
  split; [exact Hkeep|]. split; [exact Hfull|].
  unfold Original.init_vehicle_db at 1.
  destruct (Nat.eqb_spec (size (Original.init_vehicle_db vs)) 0) as [H0|_];
    [|reflexivity].
  apply map_size_empty_inv in H0. contradiction.
Qed.

(** ** Login, logout and the dashboard *)

(** X16: a login request is accepted exactly when the user name is a key of
    [users] and the submitted password equals the stored one: then the answer
    is the redirect to the dashboard and the session holds the id, name, full
    name and role of that row; in every other case, a missing form field
    included, the answer is the login page with the error text and the
    session is the one before. *)
Theorem login_outcome (s : Original.state)
    (session : gmap string Original.session_value) (u p : option (list N)) :
  (exists name row,
     u = Some name /\ p = Some (Original.password row) /\
     Original.users s !! name = Some row /\
     Original.login true u p session s =
     (Redirect "index",
      <["role"%string := Original.SStr (Original.role row)]>
        (<["full_name"%string := Original.SStr (Original.full_name row)]>
           (<["username"%string := Original.SStr name]>
              (<["user_id"%string := Original.SInt (Original.user_id row)]> session)))))
  \/
  ((forall name row,
      u = Some name -> Original.users s !! name = Some row ->
      p <> Some (Original.password row)) /\
   Original.login true u p session s =
   (RenderLogin (Some (lit "Invalid username or password")), session)).
Proof.
  unfold Original.login.
  destruct (Original.authenticate_user (Original.users s) u p) as [info|] eqn:E.
  - left. apply authenticate_user_Some in E as (name & row & -> & -> & Hrow & ->).
    exists name, row. simpl. auto.
  - right. split; [|reflexivity].
    intros name row -> Hrow ->.
    assert (Original.authenticate_user (Original.users s) (Some name)
              (Some (Original.password row)) <> None) as H; [|contradiction].
    unfold Original.authenticate_user. rewrite Hrow.
    destruct (decide (Original.password row = Original.password row)); congruence.
Qed.

Section Lifecycle.
Context {U : CaseMap}.
Variable secure_filename : str -> str.

(** X17: after an accepted login the gated routes run their views, and after
    [/logout] they answer with the redirect again: the session of a login
    passes [login_required], the session [logout] leaves does not. *)
Theorem session_lifecycle (s : Original.state)
    (session : gmap string Original.session_value) (name : str)
    (row : Original.user_row) (data : gmap string (list N)) :
  Original.users s !! name = Some row ->
  let logged_in :=
    (Original.login true (Some name) (Some (Original.password row)) session s).2 in
  let logged_out := (Original.logout logged_in).2 in
  logged_in !! "user_id"%string = Some (Original.SInt (Original.user_id row)) /\
  Original.scan_vehicle data logged_in s = Original.scan_vehicle_view data s /\
  Original.gallery logged_in s = Original.gallery_view s /\
  Original.scan_vehicle data logged_out s = (Redirect "login", s) /\
  Original.gallery logged_out s = (Redirect "login", s).
Proof.
  intros Hrow logged_in logged_out.
  assert (logged_in !! "user_id"%string = Some (Original.SInt (Original.user_id row)))
    as Hid.
  { subst logged_in. unfold Original.login, Original.authenticate_user.
    rewrite Hrow.
    destruct (decide (Original.password row = Original.password row)); [|congruence].
    simpl. rewrite !lookup_insert_ne by discriminate. apply lookup_insert_eq. }
  split; [exact Hid|].
  unfold Original.scan_vehicle, Original.gallery, Original.login_required.
  rewrite Hid. subst logged_out. simpl. rewrite lookup_empty. auto.
Qed.

(** X18: after an accepted login [/] shows the dashboard with the upload
    history, the same records [/gallery] returns, and the name, full name and
    role of the stored row; after [/logout], as without any login, it shows
    the login page without error text. The state is not changed. The public
    variant's [/] shows the records of its [/gallery] to everyone. *)
Theorem dashboard_after_login (s : Original.state)
    (session : gmap string Original.session_value) (name : str)
    (row : Original.user_row) :
  Original.users s !! name = Some row ->
  let logged_in :=
    (Original.login true (Some name) (Some (Original.password row)) session s).2 in
  Original.index logged_in s =
    (inr {| Original.dash_images := get_images (Original.store s);
            Original.dash_username := Some (Original.SStr name);
            Original.dash_full_name := Some (Original.SStr (Original.full_name row));
            Original.dash_role := Some (Original.SStr (Original.role row)) |}, s) /\
  Original.gallery logged_in s =
    (Jsonify (JImages (get_images (Original.store s))) 200, s) /\
  Original.index (Original.logout logged_in).2 s = (inl (RenderLogin None), s) /\
  Original.index ∅ s = (inl (RenderLogin None), s) /\
  (forall c : Container.state,
     Container.index c = (get_images (Container.store c), c) /\
     Container.gallery c = (Jsonify (JImages (get_images (Container.store c))) 200, c)).
Proof.
  intros Hrow logged_in.
  assert (logged_in =
    <["role"%string := Original.SStr (Original.role row)]>
      (<["full_name"%string := Original.SStr (Original.full_name row)]>
         (<["username"%string := Original.SStr name]>
            (<["user_id"%string := Original.SInt (Original.user_id row)]> session))))
    as ->.
  { subst logged_in. unfold Original.login, Original.authenticate_user.
    rewrite Hrow.
    destruct (decide (Original.password row = Original.password row)); [|congruence].
    reflexivity. }
  unfold Original.index, Original.gallery, Original.login_required, Original.logout.
  simpl. rewrite !lookup_empty.
  rewrite lookup_insert_eq.
  rewrite (lookup_insert_ne _ "role"%string "full_name"%string) by discriminate.
  rewrite lookup_insert_eq.
  rewrite !(lookup_insert_ne _ _ "username"%string) by discriminate.
  rewrite lookup_insert_eq.
  rewrite !(lookup_insert_ne _ _ "user_id"%string) by discriminate.
  rewrite lookup_insert_eq.
  repeat split; reflexivity.
Qed.

End Lifecycle.

(** ** Files in the upload folder *)

Section Folder.
Variable secure_filename : str -> str.

(** X19: two uploads whose sanitized file names differ, and are not empty,
    are written to two different paths: after both, each file is on disk
    with its own bytes. *)
Theorem distinct_names_keep_both (st : storage) (c1 c2 : upload_call) :
  secure_filename (file_filename (call_file c1)) <>
    secure_filename (file_filename (call_file c2)) ->
  secure_filename (file_filename (call_file c1)) <> [] ->
  secure_filename (file_filename (call_file c2)) <> [] ->
  let st2 := run_uploads secure_filename st [c1; c2] in
  files st2 !! os_path_join UPLOAD_FOLDER (secure_filename (file_filename (call_file c1)))
    = Some (file_content (call_file c1)) /\
  files st2 !! os_path_join UPLOAD_FOLDER (secure_filename (file_filename (call_file c2)))
    = Some (file_content (call_file c2)).
Proof.
  intros Hname Hsafe1 Hsafe2 st2. subst st2.
  rewrite !run_uploads_cons.
  rewrite (save_image_Some _ _ _ _ _ _ Hsafe1), (save_image_Some _ _ _ _ _ _ Hsafe2).
  simpl. split.
  - rewrite lookup_insert_ne; [apply lookup_insert_eq|].
    intros H. apply os_path_join_inj in H. congruence.
  - apply lookup_insert_eq.
Qed.

End Folder.

(** ** Instances of the statements with hypotheses *)

Lemma scan_nonblank_plate_witness :
  strip (default [] (({[ "license_plate"%string := lit " ka03 mn7788 " ]}
                        : gmap string (list N)) !! "license_plate"%string)) <> [] /\
  Original.scan_vehicle (U := ascii_case_map)
    {[ "license_plate"%string := lit " ka03 mn7788 " ]} demo_session fresh_original =
  (Jsonify (JVerdict
     (Original.verify_vehicle (U := ascii_case_map) (Original.vehicles fresh_original)
        (default [] (({[ "license_plate"%string := lit " ka03 mn7788 " ]}
                        : gmap string (list N)) !! "license_plate"%string)))) 200,
   fresh_original).
Proof.
  assert (strip (default [] (({[ "license_plate"%string := lit " ka03 mn7788 " ]}
                        : gmap string (list N)) !! "license_plate"%string)) <> [])
    as H by (vm_compute; discriminate).
  split; [exact H|].
  apply (scan_nonblank_plate (U := ascii_case_map) _ H).
  exists (Original.SInt 1). vm_compute. reflexivity.
Defined.

Lemma upload_rejected_witness :
  (req_files empty_upload !! "image"%string = None \/
   exists file, req_files empty_upload !! "image"%string = Some file /\
                file_filename file = []) /\
  exists msg,
    Container.upload_image (U := ascii_case_map) (fun name => name) empty_upload
      (fresh_clock 0) fresh_container = (Jsonify (JMessage msg) 400, fresh_container).
Proof.
  assert (req_files empty_upload !! "image"%string = None \/
          exists file, req_files empty_upload !! "image"%string = Some file /\
                       file_filename file = []) as H
    by (left; vm_compute; reflexivity).
  split; [exact H|].
  exact (proj1 (upload_rejected (U := ascii_case_map) (fun name => name)
                  empty_upload (fresh_clock 0) H) fresh_container).
Defined.

Lemma upload_accepted_witness :
  req_files car_upload !! "image"%string =
    Some {| file_filename := lit "car.jpg"; file_content := [255; 216] |} /\
  lit "car.jpg" <> [] /\
  files (Original.store
           (Original.upload_image (U := ascii_case_map) (fun name => name) car_upload
              (fresh_clock 0) demo_session fresh_original).2) =
    <[os_path_join UPLOAD_FOLDER (lit "car.jpg") := [255; 216]]>
      (files (Original.store fresh_original)).
Proof.
  assert (req_files car_upload !! "image"%string =
    Some {| file_filename := lit "car.jpg"; file_content := [255; 216] |}) as H1
    by (vm_compute; reflexivity).
  assert (lit "car.jpg" <> []) as H2 by (vm_compute; discriminate).
  assert (is_Some (demo_session !! "user_id"%string)) as H3
    by (exists (Original.SInt 1); vm_compute; reflexivity).
  split; [exact H1|]. split; [exact H2|].
  destruct (upload_accepted (U := ascii_case_map) (fun name => name)
              car_upload _ (fresh_clock 0) H1 H2 H2) as [_ Hg].
  destruct (Hg demo_session fresh_original H3) as (_ & _ & _ & _ & Hfiles).
  exact Hfiles.
Defined.

Lemma upload_blank_plate_witness :
  req_files blank_upload !! "image"%string =
    Some {| file_filename := lit "car.jpg"; file_content := [255; 216] |} /\
  lit "car.jpg" <> [] /\
  req_form blank_upload !! "license_plate"%string = Some (lit "   ") /\
  forallb isspace (lit "   ") = true /\
  List.map columns
    (img_rows (images (Original.store
       (Original.upload_image (U := ascii_case_map) (fun name => name) blank_upload
          (fresh_clock 0) demo_session fresh_original).2))) =
  List.map columns (img_rows (images (Original.store fresh_original))) ++
    [ (lit "car.jpg", isoformat (fresh_clock 0), lit "   ", 0%Z) ].
Proof.
  assert (req_files blank_upload !! "image"%string =
    Some {| file_filename := lit "car.jpg"; file_content := [255; 216] |}) as H1
    by (vm_compute; reflexivity).
  assert (lit "car.jpg" <> []) as H2 by (vm_compute; discriminate).
  assert (req_form blank_upload !! "license_plate"%string = Some (lit "   ")) as H3
    by (vm_compute; reflexivity).
  assert (forallb isspace (lit "   ") = true) as H4 by (vm_compute; reflexivity).
  assert (is_Some (demo_session !! "user_id"%string)) as H5
    by (exists (Original.SInt 1); vm_compute; reflexivity).
  assert (Original.vehicles fresh_original !! ([] : list N) = None) as H6
    by (vm_compute; reflexivity).
  split; [exact H1|]. split; [exact H2|]. split; [exact H3|]. split; [exact H4|].
  destruct (upload_blank_plate (U := ascii_case_map) (fun name => name)
              blank_upload _ (fresh_clock 0) _ H1 H2 H2 H3 H4) as [_ Hg].
  exact (proj2 (Hg demo_session fresh_original H5 H6)).
Defined.

Lemma upload_unusable_name_witness :
  req_files dots_upload !! "image"%string =
    Some {| file_filename := lit ".."; file_content := [255; 216] |} /\
  lit ".." <> [] /\
  without_dots (lit "..") = [] /\
  Container.upload_image (U := ascii_case_map) without_dots dots_upload
    (fresh_clock 0) fresh_container = (InternalServerError, fresh_container).
Proof.
  assert (req_files dots_upload !! "image"%string =
    Some {| file_filename := lit ".."; file_content := [255; 216] |}) as H1
    by (vm_compute; reflexivity).
  assert (lit ".." <> []) as H2 by (vm_compute; discriminate).
  assert (without_dots (lit "..") = []) as H3 by (vm_compute; reflexivity).
  split; [exact H1|]. split; [exact H2|]. split; [exact H3|].
  exact (proj1 (upload_unusable_name (U := ascii_case_map) without_dots
                  dots_upload _ (fresh_clock 0) H1 H2 H3) fresh_container).
Defined.

Lemma newest_upload_first_witness :
  lit "b.jpg" <> [] /\
  all_before (isoformat demo_later) (img_rows (images demo_storage)) /\
  exists st',
    save_image (fun name => name) demo_storage
      {| file_filename := lit "b.jpg"; file_content := [2] |}
      (lit "ka03 mn7788") false demo_later = Some (lit "b.jpg", st') /\
    get_images st' =
    (lit "b.jpg", isoformat demo_later, lit "ka03 mn7788", int_of_bool false)
      :: get_images demo_storage.
Proof.
  assert (lit "b.jpg" <> []) as H0 by (vm_compute; discriminate).
  assert (all_before (isoformat demo_later) (img_rows (images demo_storage))) as H.
  { repeat constructor. }
  split; [exact H0|]. split; [exact H|].
  exact (newest_upload_first (fun name => name) demo_storage
           {| file_filename := lit "b.jpg"; file_content := [2] |}
           (lit "ka03 mn7788") false demo_later H0 H).
Defined.

Lemma same_name_overwrites_witness :
  lit "car.jpg" = lit "car.jpg" /\
  lit "car.jpg" <> [] /\
  files (run_uploads (fun name => name) {| images := init_db None; files := ∅ |}
           [ {| call_file := {| file_filename := lit "car.jpg"; file_content := [1] |};
                call_plate := lit "MH12AB1234"; call_verdict := true;
                call_now := fresh_clock 0 |};
             {| call_file := {| file_filename := lit "car.jpg"; file_content := [2] |};
                call_plate := lit "KA03MN7788"; call_verdict := false;
                call_now := demo_later |} ]) =
  <[os_path_join UPLOAD_FOLDER (lit "car.jpg") := [2]]> ∅.
Proof.
  assert (lit "car.jpg" <> []) as H by (vm_compute; discriminate).
  split; [reflexivity|]. split; [exact H|].
  exact (proj1 (same_name_overwrites (fun name => name)
                  {| images := init_db None; files := ∅ |}
                  {| call_file := {| file_filename := lit "car.jpg"; file_content := [1] |};
                     call_plate := lit "MH12AB1234"; call_verdict := true;
                     call_now := fresh_clock 0 |}
                  {| call_file := {| file_filename := lit "car.jpg"; file_content := [2] |};
                     call_plate := lit "KA03MN7788"; call_verdict := false;
                     call_now := demo_later |}
                  eq_refl H)).
Defined.

Lemma distinct_names_keep_both_witness :
  lit "a.jpg" <> lit "b.jpg" /\
  lit "a.jpg" <> [] /\
  lit "b.jpg" <> [] /\
  files (run_uploads (fun name => name) {| images := init_db None; files := ∅ |}
           [ {| call_file := {| file_filename := lit "a.jpg"; file_content := [1] |};
                call_plate := lit "MH12AB1234"; call_verdict := true;
                call_now := fresh_clock 0 |};
             {| call_file := {| file_filename := lit "b.jpg"; file_content := [2] |};
                call_plate := lit "KA03MN7788"; call_verdict := false;
                call_now := demo_later |} ])
    !! os_path_join UPLOAD_FOLDER (lit "a.jpg") = Some [1].
Proof.
  assert (lit "a.jpg" <> lit "b.jpg") as H by (vm_compute; discriminate).
  assert (lit "a.jpg" <> []) as Ha by (vm_compute; discriminate).
  assert (lit "b.jpg" <> []) as Hb by (vm_compute; discriminate).
  split; [exact H|]. split; [exact Ha|]. split; [exact Hb|].
  exact (proj1 (distinct_names_keep_both (fun name => name)
                  {| images := init_db None; files := ∅ |}
                  {| call_file := {| file_filename := lit "a.jpg"; file_content := [1] |};
                     call_plate := lit "MH12AB1234"; call_verdict := true;
                     call_now := fresh_clock 0 |}
                  {| call_file := {| file_filename := lit "b.jpg"; file_content := [2] |};
                     call_plate := lit "KA03MN7788"; call_verdict := false;
                     call_now := demo_later |}
                  H Ha Hb)).
Defined.

Lemma isoformat_order_witness :
  valid_datetime (fresh_clock 0) /\ valid_datetime demo_later /\
  str_compare (isoformat (fresh_clock 0)) (isoformat demo_later) =
  datetime_compare (fresh_clock 0) demo_later.
Proof.
  assert (valid_datetime (fresh_clock 0)) as H1 by (unfold valid_datetime; simpl; lia).
  assert (valid_datetime demo_later) as H2 by (unfold valid_datetime; simpl; lia).
  split; [exact H1|]. split; [exact H2|].
  exact (proj1 (isoformat_order _ _ H1 H2)).
Defined.

Lemma session_lifecycle_witness :
  Original.users fresh_original !! lit "admin" =
    Some {| Original.user_id := 1; Original.password := lit "admin123";
            Original.full_name := lit "Administrator"; Original.role := lit "admin";
            Original.created_at := lit "2024-03-01T09:30:00" |} /\
  (Original.login true (Some (lit "admin")) (Some (lit "admin123")) ∅ fresh_original).2
    !! "user_id"%string = Some (Original.SInt 1).
Proof.
  assert (Original.users fresh_original !! lit "admin" =
    Some {| Original.user_id := 1; Original.password := lit "admin123";
            Original.full_name := lit "Administrator"; Original.role := lit "admin";
            Original.created_at := lit "2024-03-01T09:30:00" |}) as H
    by (vm_compute; reflexivity).
  split; [exact H|].
  exact (proj1 (session_lifecycle (U := ascii_case_map) fresh_original ∅ (lit "admin")
                  _ ∅ H)).
Defined.

Lemma dashboard_after_login_witness :
  Original.users fresh_original !! lit "faculty1" =
    Some {| Original.user_id := 4; Original.password := lit "pass123";
            Original.full_name := lit "Dr. Amit Kumar"; Original.role := lit "faculty";
            Original.created_at := lit "2024-03-01T09:30:00" |} /\
  Original.index
    (Original.login true (Some (lit "faculty1")) (Some (lit "pass123")) ∅
       fresh_original).2 fresh_original =
  (inr {| Original.dash_images := get_images (Original.store fresh_original);
          Original.dash_username := Some (Original.SStr (lit "faculty1"));
          Original.dash_full_name := Some (Original.SStr (lit "Dr. Amit Kumar"));
          Original.dash_role := Some (Original.SStr (lit "faculty")) |},
   fresh_original).
Proof.
  assert (Original.users fresh_original !! lit "faculty1" =
    Some {| Original.user_id := 4; Original.password := lit "pass123";
            Original.full_name := lit "Dr. Amit Kumar"; Original.role := lit "faculty";
            Original.created_at := lit "2024-03-01T09:30:00" |}) as H
    by (vm_compute; reflexivity).
  split; [exact H|].
  exact (proj1 (dashboard_after_login fresh_original ∅ (lit "faculty1") _ H)).
Defined.
